(** * canvas-engine: the engine, its game objects and its particle emitter

    A shallow embedding of the two source files of the repository,
    [src/index.js] and [src/unnamed/part_000], two variants of one script:
    an [Engine] with a state flag and two timer loops, a [GameObject] with a
    position, a velocity and an acceleration factor, and a
    [ParticleEmitter] holding a bounded list of game objects.

    Conventions of the embedding.
    - Where only the structure of a computation matters (which field is
      written, which call throws, how long a list is, between which
      integers an index lies), a JavaScript number is an exact rational
      ([Qc], rationals in lowest terms, so that [=] is equality of
      numbers).  Where the value of a number matters, in the range check
      of [setAcceleration] and in the arithmetic of [move], the numbers
      are doubles, with NaN, the infinities and rounding: module
      [Doubles].
    - A call that throws is a [Throw]; a call that returns is a [Return].
      Where a method mutates [this] before it throws, the method returns
      the mutated object next to the completion.
    - [Math.random()] and the functions that are free in a file are
      oracles: the value [Math.random()] gives at a call, and the
      completion of a call of a free function, are arguments of the
      model. *)

From Stdlib Require Import QArith Qcanon Qcabs Qabs Qround ZArith Lia Lqa.
From stdpp Require Import base numbers list strings option.

#[local] Set Warnings "-register-all".
Local Open Scope Z_scope.

(** ** JavaScript values and completions *)

Module JS.

(** The values the scripts handle.  [VFun] is a function, known by an
    identifier only; [VObj] is a plain object literal, given by its own
    properties in order. *)
Inductive value : Type :=
| VUndefined
| VNull
| VBool (b : bool)
| VNum (q : Qc)
| VStr (s : string)
| VFun (id : nat)
| VObj (props : list (string * value)).

Inductive exn : Type :=
| Error (msg : string) (parts : list value)
| TypeError (msg : string)
| ReferenceError (msg : string).

Inductive result (A : Type) : Type :=
| Return (a : A)
| Throw (e : exn).
Arguments Return {A} a.
Arguments Throw {A} e.

(** Sequencing: a throw leaves the rest of the body unexecuted. *)
#[global] Instance result_bind : MBind result :=
  fun A B (k : A -> result B) (r : result A) =>
    match r with
    | Return a => k a
    | Throw e => Throw e
    end.

(** A method that may have mutated its objects when it throws: the
    objects after the call, and how the call completed. *)
Definition completion (S : Type) : Type := (S * result unit)%type.

(** [typeof v] *)
Definition typeof (v : value) : string :=
  match v with
  | VUndefined => "undefined"
  | VNull => "object"
  | VBool _ => "boolean"
  | VNum _ => "number"
  | VStr _ => "string"
  | VFun _ => "function"
  | VObj _ => "object"
  end.

Definition is_number (v : value) : bool :=
  match v with VNum _ => true | _ => false end.

Definition is_function (v : value) : bool :=
  match v with VFun _ => true | _ => false end.

(** ToBoolean: undefined, null, false, 0 and the empty string are falsy. *)
Definition truthy (v : value) : bool :=
  match v with
  | VUndefined | VNull => false
  | VBool b => b
  | VNum q => if Qc_eq_dec q 0%Qc then false else true
  | VStr s => negb (String.eqb s "")
  | VFun _ | VObj _ => true
  end.

(** [a || b] *)
Definition or_else (a b : value) : value := if truthy a then a else b.

(** [a === b].  Two object literals are two references, never equal. *)
Definition strict_eq (a b : value) : bool :=
  match a, b with
  | VUndefined, VUndefined => true
  | VNull, VNull => true
  | VBool p, VBool q => Bool.eqb p q
  | VNum p, VNum q => if Qc_eq_dec p q then true else false
  | VStr s, VStr t => String.eqb s t
  | VFun i, VFun j => Nat.eqb i j
  | _, _ => false
  end.

(** Own properties of an object literal, in insertion order. *)
Fixpoint lookup_prop (k : string) (props : list (string * value)) : option value :=
  match props with
  | [] => None
  | (k', v) :: rest => if String.eqb k k' then Some v else lookup_prop k rest
  end.

(** [o.k] for the property names the scripts read (none of them is a
    property of a primitive's prototype): a [TypeError] on undefined and
    null, undefined on a primitive or on an object without the property. *)
Definition get (o : value) (k : string) : result value :=
  match o with
  | VUndefined | VNull => Throw (TypeError "Cannot read properties of undefined or null")
  | VObj props => Return (default VUndefined (lookup_prop k props))
  | _ => Return VUndefined
  end.

(** [a < b] and [a > b] on numbers. *)
Definition lt (a b : Qc) : bool := if Qclt_le_dec a b then true else false.
Definition gt (a b : Qc) : bool := lt b a.

(** Numeric literals. *)
Definition num (z : Z) : Qc := Q2Qc (inject_Z z).

End JS.

Import JS.

(** ** GameObject

    [function GameObject] and its prototype are the same text in the two
    files ([src/index.js] lines 24-100, [src/unnamed/part_000] lines
    149-230). *)

Module GameObject.

Record XY : Type := { x : Qc; y : Qc }.
Record Size : Type := { width : value; height : value }.

(** The draw routine bound to an object: the routine is a closure of the
    script, known here by a tag. *)
Inductive routine : Type :=
| ParticleRender
| UserRender (id : nat).

Record GameObject : Type := {
  position : XY;
  velocity : XY;
  acceleration : Qc;
  size : Size;
  color : value;
  methods_render : option routine
}.

Definition set_position (p : XY) (this : GameObject) : GameObject :=
  {| position := p; velocity := velocity this;
     acceleration := acceleration this; size := size this;
     color := color this; methods_render := methods_render this |}.

Definition set_velocity (v : XY) (this : GameObject) : GameObject :=
  {| position := position this; velocity := v;
     acceleration := acceleration this; size := size this;
     color := color this; methods_render := methods_render this |}.

Definition set_acceleration (a : Qc) (this : GameObject) : GameObject :=
  {| position := position this; velocity := velocity this;
     acceleration := a; size := size this;
     color := color this; methods_render := methods_render this |}.

Definition set_size (s : Size) (this : GameObject) : GameObject :=
  {| position := position this; velocity := velocity this;
     acceleration := acceleration this; size := s;
     color := color this; methods_render := methods_render this |}.

Definition set_color (c : value) (this : GameObject) : GameObject :=
  {| position := position this; velocity := velocity this;
     acceleration := acceleration this; size := size this;
     color := c; methods_render := methods_render this |}.

Definition set_methods_render (r : option routine) (this : GameObject) : GameObject :=
  {| position := position this; velocity := velocity this;
     acceleration := acceleration this; size := size this;
     color := color this; methods_render := r |}.

(** A destructured parameter with a default: [{ x = d }]. *)
Definition param_default (v : value) (d : Qc) : value :=
  match v with VUndefined => VNum d | _ => v end.

(** [setPosition ({ x = this.position.x, y = this.position.y })] *)
Definition setPosition (arg : value) (this : GameObject) : result GameObject :=
  ax ← get arg "x";
  ay ← get arg "y";
  match param_default ax (x (position this)), param_default ay (y (position this)) with
  | VNum nx, VNum ny => Return (set_position {| x := nx; y := ny |} this)
  | _, _ => Throw (Error "setPosition called with invalid x and y coordinates." [])
  end.

(** [setVelocity ({ x = this.velocity.x, y = this.velocity.y })] *)
Definition setVelocity (arg : value) (this : GameObject) : result GameObject :=
  ax ← get arg "x";
  ay ← get arg "y";
  match param_default ax (x (velocity this)), param_default ay (y (velocity this)) with
  | VNum nx, VNum ny => Return (set_velocity {| x := nx; y := ny |} this)
  | _, _ => Throw (Error "setVelocity called with invalid x and y coordinates." [])
  end.

(** [setAcceleration (a)] *)
Definition setAcceleration (a : value) (this : GameObject) : result GameObject :=
  match a with
  | VNum q =>
      if lt q 0%Qc || gt q 1%Qc
      then Throw (Error "Acceleration must be between 0 and 1." [])
      else Return (set_acceleration q this)
  | _ => Throw (Error "setAcceleration must be called with a number." [])
  end.

(** [setSize (width, height = width)] *)
Definition setSize (w h : value) (this : GameObject) : GameObject :=
  let h' := match h with VUndefined => w | _ => h end in
  set_size {| width := w; height := h' |} this.

(** [move ()]: the boundary reflection is commented out in the source. *)
Definition move (this : GameObject) : GameObject :=
  let Px := x (position this) in
  let Py := y (position this) in
  let Vx := x (velocity this) in
  let Vy := y (velocity this) in
  let A := acceleration this in
  let nextPos := {| x := (Px + (Vx * A))%Qc; y := (Py + (Vy * A))%Qc |} in
  set_position nextPos this.

(** The settings of the constructor: [init] and [render] are functions
    when they are [Some]. *)
Record settings : Type := {
  init : option (GameObject -> result GameObject);
  render : option routine
}.

Definition blank : GameObject :=
  {| position := {| x := 0%Qc; y := 0%Qc |};
     velocity := {| x := 0%Qc; y := 0%Qc |};
     acceleration := 0%Qc;
     size := {| width := VNum 0%Qc; height := VNum 0%Qc |};
     color := VUndefined;
     methods_render := None |}.

(** [function GameObject (settings)] *)
Definition createObject (s : settings) : result GameObject :=
  this ← match init s with
         | Some f => f blank
         | None => Return blank
         end;
  match render s with
  | Some r => Return (set_methods_render (Some r) this)
  | None => Throw (Error "GameObject requires a render method." [])
  end.

End GameObject.

(** ** GameObject over doubles

    The numbers of JavaScript are IEEE 754 doubles: besides the finite
    values there are the two infinities and NaN, [typeof] is ["number"]
    for all of them, and a sum or a product is rounded to the nearest
    double.  What the claims say about the value of a position or of an
    acceleration is stated over this embedding of the same text of
    [GameObject], with such numbers in the place of the rationals. *)

Module Doubles.

(** A number.  The finite doubles are the rationals [q] with
    [round q = Fin q].  The two zeros are the one value [Fin 0], so what
    is stated of a number is stated up to the sign of a zero: the scripts
    never divide, and no other operation they use tells -0 from +0. *)
Inductive number : Type :=
| Fin (q : Qc)
| PInf
| NInf
| NaN.

Definition pow2 (e : Z) : Q := Qpower (2 # 1) e.

(** The binade of a positive rational: the [e] with [2^e <= q < 2^(e+1)]. *)
Definition binade (q : Q) : Z :=
  let e := Z.log2 (Qnum q) - Z.log2 (Zpos (Qden q)) in
  if Qle_bool (pow2 e) q then e else e - 1.

(** The nearest integer, the even one of two that are as near. *)
Definition nearest_even (q : Q) : Z :=
  let f := Qfloor q in
  match Qcompare (q - inject_Z f) (1 # 2) with
  | Lt => f
  | Gt => f + 1
  | Eq => if Z.even f then f else f + 1
  end.

(** Rounding to binary64, to nearest with ties to even: 53 bits of
    significand, a unit in the last place of [2^-1074] at the least, and
    an infinity for what rounds to [2^1024] or beyond. *)
Definition round (q : Qc) : number :=
  if Qc_eq_dec q 0%Qc then Fin 0%Qc
  else
    let a := Qabs (this q) in
    let ulp := pow2 (Z.max (binade a - 52) (-1074)) in
    let r := (inject_Z (nearest_even (a / ulp)) * ulp)%Q in
    if Qle_bool (pow2 1024) r
    then (if Qclt_le_dec q 0%Qc then NInf else PInf)
    else Fin (Q2Qc (if Qclt_le_dec q 0%Qc then - r else r)).

(** A decimal literal of the scripts: the double nearest to it. *)
Definition literal (q : Q) : number := round (Q2Qc q).

Definition is_zero (q : Qc) : bool := if Qc_eq_dec q 0%Qc then true else false.
Definition negative (q : Qc) : bool := if Qclt_le_dec q 0%Qc then true else false.

(** [a * b] *)
Definition mul (a b : number) : number :=
  match a, b with
  | NaN, _ | _, NaN => NaN
  | Fin p, Fin q => round (p * q)%Qc
  | Fin p, PInf | PInf, Fin p =>
      if is_zero p then NaN else if negative p then NInf else PInf
  | Fin p, NInf | NInf, Fin p =>
      if is_zero p then NaN else if negative p then PInf else NInf
  | PInf, PInf | NInf, NInf => PInf
  | PInf, NInf | NInf, PInf => NInf
  end.

(** [a + b] *)
Definition add (a b : number) : number :=
  match a, b with
  | NaN, _ | _, NaN => NaN
  | Fin p, Fin q => round (p + q)%Qc
  | PInf, NInf | NInf, PInf => NaN
  | PInf, _ | _, PInf => PInf
  | NInf, _ | _, NInf => NInf
  end.

(** [a < b] and [a > b]: false whenever an operand is NaN. *)
Definition lt (a b : number) : bool :=
  match a, b with
  | Fin p, Fin q => JS.lt p q
  | NInf, Fin _ | NInf, PInf | Fin _, PInf => true
  | _, _ => false
  end.
Definition gt (a b : number) : bool := lt b a.

Definition finite (n : number) : bool :=
  match n with Fin _ => true | _ => false end.

(** The same number (NaN taken as one value, not as [===] does). *)
Definition same (a b : number) : bool :=
  match a, b with
  | Fin p, Fin q => Qc_eq_bool p q
  | PInf, PInf | NInf, NInf | NaN, NaN => true
  | _, _ => false
  end.

(** [n] is a double: a finite one is the double nearest to itself. *)
Definition representable (n : number) : bool :=
  match n with
  | Fin q => same (round q) n
  | _ => true
  end.

Inductive value : Type :=
| VUndefined
| VNull
| VBool (b : bool)
| VNum (n : number)
| VStr (s : string)
| VFun (id : nat)
| VObj (props : list (string * value)).

(** [typeof v] *)
Definition typeof (v : value) : string :=
  match v with
  | VUndefined => "undefined"
  | VNull => "object"
  | VBool _ => "boolean"
  | VNum _ => "number"
  | VStr _ => "string"
  | VFun _ => "function"
  | VObj _ => "object"
  end.

Fixpoint lookup_prop (k : string) (props : list (string * value)) : option value :=
  match props with
  | [] => None
  | (k', v) :: rest => if String.eqb k k' then Some v else lookup_prop k rest
  end.

(** [o.k], for the names [x] and [y]. *)
Definition get (o : value) (k : string) : result value :=
  match o with
  | VUndefined | VNull => Throw (TypeError "Cannot read properties of undefined or null")
  | VObj props => Return (default VUndefined (lookup_prop k props))
  | _ => Return VUndefined
  end.

Record XY : Type := { x : number; y : number }.
Record Size : Type := { width : value; height : value }.

Record GameObject : Type := {
  position : XY;
  velocity : XY;
  acceleration : number;
  size : Size;
  color : value;
  methods_render : option GameObject.routine
}.

Definition set_position (p : XY) (this : GameObject) : GameObject :=
  {| position := p; velocity := velocity this;
     acceleration := acceleration this; size := size this;
     color := color this; methods_render := methods_render this |}.

Definition set_velocity (v : XY) (this : GameObject) : GameObject :=
  {| position := position this; velocity := v;
     acceleration := acceleration this; size := size this;
     color := color this; methods_render := methods_render this |}.

Definition set_acceleration (a : number) (this : GameObject) : GameObject :=
  {| position := position this; velocity := velocity this;
     acceleration := a; size := size this;
     color := color this; methods_render := methods_render this |}.

(** A destructured parameter with a default: [{ x = d }]. *)
Definition param_default (v : value) (d : number) : value :=
  match v with VUndefined => VNum d | _ => v end.

(** [setVelocity ({ x = this.velocity.x, y = this.velocity.y })] *)
Definition setVelocity (arg : value) (this : GameObject) : result GameObject :=
  ax ← get arg "x";
  ay ← get arg "y";
  match param_default ax (x (velocity this)), param_default ay (y (velocity this)) with
  | VNum nx, VNum ny => Return (set_velocity {| x := nx; y := ny |} this)
  | _, _ => Throw (Error "setVelocity called with invalid x and y coordinates." [])
  end.

(** [setAcceleration (a)] *)
Definition setAcceleration (a : value) (this : GameObject) : result GameObject :=
  match a with
  | VNum n =>
      if lt n (Fin 0%Qc) || gt n (Fin 1%Qc)
      then Throw (Error "Acceleration must be between 0 and 1." [])
      else Return (set_acceleration n this)
  | _ => Throw (Error "setAcceleration must be called with a number." [])
  end.

(** [move ()] *)
Definition move (this : GameObject) : GameObject :=
  let Px := x (position this) in
  let Py := y (position this) in
  let Vx := x (velocity this) in
  let Vy := y (velocity this) in
  let A := acceleration this in
  let nextPos := {| x := add Px (mul Vx A); y := add Py (mul Vy A) |} in
  set_position nextPos this.

(** The object as the constructor has it before [init] runs. *)
Definition blank : GameObject :=
  {| position := {| x := Fin 0%Qc; y := Fin 0%Qc |};
     velocity := {| x := Fin 0%Qc; y := Fin 0%Qc |};
     acceleration := Fin 0%Qc;
     size := {| width := VNum (Fin 0%Qc); height := VNum (Fin 0%Qc) |};
     color := VUndefined;
     methods_render := None |}.

End Doubles.

Import GameObject.

(** ** What lives outside an engine instance

    The [states] object is one module-level table, shared by every engine
    of the page; only its [last] property is ever assigned.  The browser
    keeps the interval timers and the pending animation-frame requests. *)

Module Page.

(** The own properties in insertion order, the order [Object.keys]
    follows. *)
Definition table : Type := list (string * value).

(** The two loops [start] builds, closed over the caller's callbacks. *)
Inductive task : Type :=
| RENDER_LOOP (render : value)
| SIM_LOOP (loop : value).

Record Page : Type := {
  states : table;
  intervals : list (task * Z);
  animation_frames : list task
}.

(** [t.k] *)
Definition prop (t : table) (k : string) : value :=
  default VUndefined (lookup_prop k t).

(** [t.k = v]: an own property keeps its place, a new one goes last. *)
Fixpoint assign (k : string) (v : value) (t : table) : table :=
  match t with
  | [] => [(k, v)]
  | (k', v') :: rest =>
      if String.eqb k k' then (k', v) :: rest else (k', v') :: assign k v rest
  end.

(** ToPropertyKey of a primitive, as far as the tables need it: the key
    of a number is its decimal rendering, which is none of the lowercase
    words the tables have as keys, so it is [None].  An object or a
    function is converted by its [toString] or [valueOf], code of the
    caller that is not run here: it is given no key, and what is stated
    about a key below is stated of primitives. *)
Definition toPropertyKey (v : value) : option string :=
  match v with
  | VStr s => Some s
  | VUndefined => Some "undefined"
  | VNull => Some "null"
  | VBool true => Some "true"
  | VBool false => Some "false"
  | VNum _ | VFun _ | VObj _ => None
  end.

(** [t.hasOwnProperty (v)] *)
Definition hasOwnProperty (t : table) (v : value) : bool :=
  match toPropertyKey v with
  | Some k => match lookup_prop k t with Some _ => true | None => false end
  | None => false
  end.

(** [t[v]] *)
Definition index (t : table) (v : value) : value :=
  match toPropertyKey v with
  | Some k => prop t k
  | None => VUndefined
  end.

(** [Object.keys (t).map (k => t[k])] *)
Definition values (t : table) : list value := snd <$> t.

(** [vals.indexOf (v)]: the first index whose element is [=== v], or -1. *)
Fixpoint indexOf_from (i : Z) (vals : list value) (v : value) : Z :=
  match vals with
  | [] => -1
  | w :: rest => if strict_eq w v then i else indexOf_from (i + 1) rest v
  end.
Definition indexOf (vals : list value) (v : value) : Z := indexOf_from 0 vals v.

(** [~n] is truthy unless it is 0. *)
Definition bitnot_truthy (n : Z) : bool := negb (Z.lnot n =? 0).

Definition set_states (t : table) (pg : Page) : Page :=
  {| states := t; intervals := intervals pg;
     animation_frames := animation_frames pg |}.

(** [setInterval (f, ms)] *)
Definition setInterval (f : task) (ms : Z) (pg : Page) : Page :=
  {| states := states pg; intervals := intervals pg ++ [(f, ms)];
     animation_frames := animation_frames pg |}.

(** [requestAnimationFrame (f)] *)
Definition requestAnimationFrame (f : task) (pg : Page) : Page :=
  {| states := states pg; intervals := intervals pg;
     animation_frames := animation_frames pg ++ [f] |}.

(** The parameter [{ loop, render }] of [start]. *)
Definition destructure_loop_render (arg : value) : result (value * value) :=
  loop_fn ← get arg "loop";
  render_fn ← get arg "render";
  Return (loop_fn, render_fn).

(** The message of both constructors when there is no canvas. *)
Definition no_canvas : string :=
  "Engine requires a canvas to render on. Pass a canvas element as `canvas.el` in your settings object. See the documentation for more help.".

(** A canvas element, by the two attributes the constructors assign. *)
Record HTMLCanvasElement : Type := { el_width : value; el_height : value }.

End Page.

Import Page.

(** ** src/index.js *)

Module Index.

(** [const states], with the current value of [last]. *)
Definition states_with (last : value) : table :=
  [("init", VStr "INIT"); ("start", VStr "START"); ("play", VStr "PLAY");
   ("pause", VStr "PAUSE"); ("end", VStr "END"); ("last", last)].

(** The page as the script leaves it when it is loaded. *)
Definition loaded : Page :=
  {| states := states_with VNull; intervals := []; animation_frames := [] |}.

Record Engine : Type := {
  canvas_el : HTMLCanvasElement;
  canvas_size : Size;
  state : value;
  render : option task
}.

Definition set_state (v : value) (this : Engine) : Engine :=
  {| canvas_el := canvas_el this; canvas_size := canvas_size this;
     state := v; render := render this |}.

Definition set_render (f : task) (this : Engine) : Engine :=
  {| canvas_el := canvas_el this; canvas_size := canvas_size this;
     state := state this; render := Some f |}.

(** [function Engine ({ canvas, render, loop })]: [el] is [None] when
    [canvas.el] is null or falsy. *)
Definition new_Engine (el : option HTMLCanvasElement) (sz : Size)
    (render_fn loop_fn : value) (pg : Page) : result Engine :=
  match el with
  | None => Throw (Error no_canvas [])
  | Some _ =>
      if negb (is_function render_fn) || negb (is_function loop_fn)
      then Throw (Error "Engine requires a `render` function and a `loop` function. Pass these as properties on your settings object. See the documentation for more help." [])
      else Return {| canvas_el := {| el_width := width sz; el_height := height sz |};
                     canvas_size := sz;
                     state := prop (states pg) "init";
                     render := None |}
  end.

(** [setState (state)] *)
Definition setState (arg : value) (this : Engine) (pg : Page) : completion (Engine * Page) :=
  if hasOwnProperty (states pg) arg then
    let pg' := set_states (assign "last" (state this) (states pg)) pg in
    ((set_state (index (states pg') arg) this, pg'), Return ())
  else ((this, pg), Throw (Error "No state found for " [arg])).

(** [start ({ loop, render })] *)
Definition start (arg : value) (this : Engine) (pg : Page) : completion (Engine * Page) :=
  match destructure_loop_render arg with
  | Throw e => ((this, pg), Throw e)
  | Return (loop_fn, render_fn) =>
      if strict_eq (state this) (prop (states pg) "init") then
        let this' := set_render (RENDER_LOOP render_fn) this in
        let pg' := setInterval (SIM_LOOP loop_fn) 50 pg in
        let pg'' := requestAnimationFrame (RENDER_LOOP render_fn) pg' in
        ((this', pg''), Return ())
      else ((this, pg), Return ())
  end.

(** [randomInRange (max, min = 0)], [r] being the value of [Math.random ()]. *)
Definition randomInRange (r : Qc) (max : Z) (min : option Z) : Z :=
  let min := default 0 min in
  Qfloor (r * Q2Qc (inject_Z (max - min + 1)))%Qc + min.

(** [arr[i]] *)
Definition at_index (arr : list value) (i : Z) : value :=
  if i <? 0 then VUndefined else default VUndefined (arr !! Z.to_nat i).

(** [randomInArray (arr)] *)
Definition randomInArray (r : Qc) (arr : list value) : value :=
  at_index arr (randomInRange r (Z.of_nat (length arr) - 1) None).

Record ParticleEmitter : Type := {
  limit : Z;
  particles : list GameObject
}.

Definition set_particles (ps : list GameObject) (this : ParticleEmitter) : ParticleEmitter :=
  {| limit := limit this; particles := ps |}.

(** The two values [Math.random ()] gives while one particle is built. *)
Record draws : Type := { for_velocity : Qc; for_color : Qc }.

(** [createParticle (x = 0, y = 0)] *)
Definition createParticle (px py : value) (d : draws) : result GameObject :=
  let px := param_default px 0%Qc in
  let py := param_default py 0%Qc in
  createObject {|
    init := Some (fun this =>
      let this := setSize (VNum (num 3)) VUndefined this in
      this ← setPosition (VObj [("x", px); ("y", py)]) this;
      this ← setVelocity
               (VObj [("x", VNum (num 10));
                      ("y", VNum (num (randomInRange (for_velocity d) 3 (Some (-3)))))])
               this;
      this ← setAcceleration (VNum (num 1)) this;
      Return (set_color
                (randomInArray (for_color d)
                   [VStr "red"; VStr "blue"; VStr "orange"; VStr "green"])
                this));
    GameObject.render := Some ParticleRender |}.

(** [function ParticleEmitter (limit = 25)] *)
Definition new_ParticleEmitter (lim : option Z) (d : draws) : result ParticleEmitter :=
  p ← createParticle (VNum (num 300)) (VNum (num 200)) d;
  Return {| limit := default 25 lim; particles := [p] |}.

(** [emit ()]: the particles are moved in place before the list is
    grown or shifted, so they stay moved when the creation throws. *)
Definition emit (d : draws) (this : ParticleEmitter) : completion ParticleEmitter :=
  let moved := move <$> particles this in
  if Z.of_nat (length moved) <? limit this then
    match createParticle (VNum (num 300)) (VNum (num 200)) d with
    | Return p => (set_particles (moved ++ [p]) this, Return ())
    | Throw e => (set_particles moved this, Throw e)
    end
  else (set_particles (tail moved) this, Return ()).

(** One [emit ()] per tick of the simulation loop: a tick that throws
    does not stop the interval. *)
Definition emit_all (ds : list draws) (this : ParticleEmitter) : ParticleEmitter :=
  foldl (fun e d => fst (emit d e)) this ds.

End Index.

(** ** src/unnamed/part_000 *)

Module Part000.

(** [const states], with the current value of [last]. *)
Definition states_with (last : value) : table :=
  [("init", VNum (num 0)); ("start", VNum (num 1)); ("play", VNum (num 2));
   ("pause", VNum (num 3)); ("end", VNum (num 4)); ("last", last)].

(** The page as the script leaves it when it is loaded. *)
Definition loaded : Page :=
  {| states := states_with VNull; intervals := []; animation_frames := [] |}.

Record Engine : Type := {
  sizes : Size;
  canvas : HTMLCanvasElement;
  state : value;
  render : option task
}.

Definition set_state (v : value) (this : Engine) : Engine :=
  {| sizes := sizes this; canvas := canvas this; state := v; render := render this |}.

Definition set_render (f : task) (this : Engine) : Engine :=
  {| sizes := sizes this; canvas := canvas this; state := state this; render := Some f |}.

(** [function Engine (settings)]: [el] is [None] when [settings.canvas]
    is not an [HTMLCanvasElement]. *)
Definition new_Engine (el : option HTMLCanvasElement) (sz : Size) (pg : Page) : result Engine :=
  match el with
  | None => Throw (Error no_canvas [])
  | Some _ =>
      Return {| sizes := sz;
                canvas := {| el_width := width sz; el_height := height sz |};
                state := prop (states pg) "init";
                render := None |}
  end.

(** [setState (state)] *)
Definition setState (arg : value) (this : Engine) (pg : Page) : completion (Engine * Page) :=
  let vals := values (states pg) in
  let last := prop (states pg) "last" in
  let pg' := set_states (assign "last" (state this) (states pg)) pg in
  if bitnot_truthy (indexOf vals arg) then
    ((set_state arg this, pg'), Return ())
  else if hasOwnProperty (states pg') arg then
    ((set_state (index (states pg') arg) this, pg'), Return ())
  else
    let pg'' := set_states (assign "last" last (states pg')) pg' in
    ((this, pg''), Throw (Error "Cannot find state " (arg :: vals))).

(** [start ({ loop, render })] *)
Definition start (arg : value) (this : Engine) (pg : Page) : completion (Engine * Page) :=
  match destructure_loop_render arg with
  | Throw e => ((this, pg), Throw e)
  | Return (loop_fn, render_fn) =>
      if strict_eq (state this) (prop (states pg) "init") then
        let this' := set_render (RENDER_LOOP render_fn) this in
        let pg' := setInterval (SIM_LOOP loop_fn) 50 pg in
        let pg'' := requestAnimationFrame (RENDER_LOOP render_fn) pg' in
        setState (prop (states pg'') "start") this' pg''
      else ((this, pg), Return ())
  end.

(** *** Engine.random *)

(** [inRange (min, max = 0)], [r] being the value of [Math.random ()]. *)
Definition inRange (r : Qc) (min : Z) (max : option Z) : Z :=
  let max := default 0 max in
  let maximum := if max <? min then min else max in
  let minimum := if max <? min then max else min in
  Qfloor (r * Q2Qc (inject_Z (maximum - minimum + 1)))%Qc + minimum.

(** [inArray (array)] *)
Definition inArray (r : Qc) (array : list value) : value :=
  let index := inRange r (Z.of_nat (length array) - 1) None in
  if index <? 0 then VUndefined else default VUndefined (array !! Z.to_nat index).

(** *** Engine.createEmitter *)

Record ParticleEmitter : Type := {
  limit : Z;
  color : value;
  size : value;
  source : value * value;
  spread : value * value;
  speed : Qc;
  particles : list GameObject
}.

Definition set_particles (ps : list GameObject) (this : ParticleEmitter) : ParticleEmitter :=
  {| limit := limit this; color := color this; size := size this;
     source := source this; spread := spread this; speed := speed this;
     particles := ps |}.

(** [randomInRange] is free in this file, which defines no such function:
    how a call of it completes depends on what else the page has loaded.
    With the file alone the identifier is unbound and the call throws. *)
Definition randomInRange_unbound : result value :=
  Throw (ReferenceError "randomInRange is not defined").

(** [createParticle (position)]: [ry] is the completion of the call
    [randomInRange (spread.high, spread.low)], which is evaluated once
    [setPosition] has returned. *)
Definition createParticle (position : value) (ry : result value) (this : ParticleEmitter)
    : result GameObject :=
  let '(srcX, srcY) := source this in
  createObject {|
    init := Some (fun o =>
      let o := setSize (size this) VUndefined o in
      o ← setPosition (VObj [("x", srcX); ("y", srcY)]) o;
      vy ← ry;
      o ← setVelocity (VObj [("x", VNum (speed this)); ("y", vy)]) o;
      o ← setAcceleration (VNum (num 1)) o;
      Return (set_color (color this) o));
    GameObject.render := Some ParticleRender |}.

(** [function ParticleEmitter (limit = 25, settings = {})] *)
Definition createEmitter (lim : option Z) (settings : value) (ry : result value)
    : result ParticleEmitter :=
  let settings := match settings with VUndefined => VObj [] | _ => settings end in
  color_ ← get settings "color";
  position ← get settings "position";
  size_ ← get settings "size";
  speed_ ← get settings "speed";
  init_ ← get settings "init";
  settings_spread ← get settings "spread";
  let spread_ := or_else settings_spread
                   (VObj [("high", VNum (num 3)); ("low", VNum (num (-3)))]) in
  position_x ← get position "x";
  position_y ← get position "y";
  spread_high ← get spread_ "high";
  spread_low ← get spread_ "low";
  let this :=
    {| limit := default 25 lim;
       color := or_else color_ (VStr "black");
       size := or_else size_ (VNum (num 2));
       source := (or_else position_x (VNum (num 0)), or_else position_y (VNum (num 0)));
       spread := (spread_high, spread_low);
       speed := match speed_ with VNum q => Qcabs q | _ => num 10 end;
       particles := [] |} in
  if truthy init_ then
    p ← createParticle (fst (source this)) ry this;
    Return (set_particles [p] this)
  else Return this.

(** [emit ()]: the particles are moved in place before the list is
    grown or shifted, so they stay moved when the creation throws. *)
Definition emit (ry : result value) (this : ParticleEmitter) : completion ParticleEmitter :=
  let moved := move <$> particles this in
  if Z.of_nat (length moved) <? limit this then
    match createParticle VUndefined ry this with
    | Return p => (set_particles (moved ++ [p]) this, Return ())
    | Throw e => (set_particles moved this, Throw e)
    end
  else (set_particles (tail moved) this, Return ()).

(** One [emit ()] per tick of the simulation loop: a tick that throws
    does not stop the interval. *)
Definition emit_all (rys : list (result value)) (this : ParticleEmitter) : ParticleEmitter :=
  foldl (fun e ry => fst (emit ry e)) this rys.

End Part000.

(** ** The loops at run time and the pause toggle

    What the browser sees of a loop: the calls on the drawing context, the
    calls of the caller's two callbacks and the lines on the console.  A
    callback is a black box: its call is recorded, and it is taken to
    return without touching the engine or the page. *)

Module Loops.

Inductive event : Type :=
| clearRect (px py : Z) (w h : value)
| render_called (f : value)
| loop_called (f : value)
| console_log (msg : string).

(** [f (...)] throws when [f] is not a function. *)
Definition not_a_function : exn := TypeError "not a function".
Definition render_undefined : exn := TypeError "this.render is undefined".

End Loops.

Import Loops.

(** *** src/index.js *)

Module IndexLoops.

Import Index.

(** The body of [RENDER_LOOP], closed over [render]. *)
Definition RENDER_LOOP_body (render_fn : value) (this : Engine) (pg : Page)
    : completion (Page * list event) :=
  if strict_eq (state this) (prop (states pg) "pause") then ((pg, []), Return ())
  else
    let cleared := [clearRect 0 0 (width (canvas_size this)) (height (canvas_size this))] in
    if is_function render_fn then
      ((requestAnimationFrame (RENDER_LOOP render_fn) pg,
        cleared ++ [render_called render_fn]), Return ())
    else ((pg, cleared), Throw not_a_function).

(** The body of [SIM_LOOP], closed over [loop]. *)
Definition SIM_LOOP_body (loop_fn : value) (this : Engine) (pg : Page)
    : completion (Page * list event) :=
  if strict_eq (state this) (prop (states pg) "pause") then ((pg, []), Return ())
  else if is_function loop_fn then ((pg, [loop_called loop_fn]), Return ())
  else ((pg, []), Throw not_a_function).

(** A bound loop, called with [this]. *)
Definition run_task (t : task) (this : Engine) (pg : Page) : completion (Page * list event) :=
  match t with
  | RENDER_LOOP f => RENDER_LOOP_body f this pg
  | SIM_LOOP f => SIM_LOOP_body f this pg
  end.

(** [togglePause ()] *)
Definition togglePause (this : Engine) (pg : Page) : completion (Engine * Page * list event) :=
  if strict_eq (state this) (prop (states pg) "pause") then
    let this' := set_state (prop (states pg) "play") this in
    match render this' with
    | None => ((this', pg, []), Throw render_undefined)
    | Some t =>
        let '((pg', evs), c) := run_task t this' pg in
        ((this', pg', evs), c)
    end
  else ((set_state (prop (states pg) "pause") this, pg, []), Return ()).

End IndexLoops.

(** *** src/unnamed/part_000 *)

Module Part000Loops.

Import Part000.

(** The body of [RENDER_LOOP], closed over [render]. *)
Definition RENDER_LOOP_body (render_fn : value) (this : Engine) (pg : Page)
    : completion (Page * list event) :=
  if strict_eq (state this) (prop (states pg) "pause") then ((pg, []), Return ())
  else
    let cleared := [clearRect 0 0 (width (sizes this)) (height (sizes this))] in
    if is_function render_fn then
      ((requestAnimationFrame (RENDER_LOOP render_fn) pg,
        cleared ++ [render_called render_fn]), Return ())
    else ((pg, cleared), Throw not_a_function).

(** The body of [SIM_LOOP], closed over [loop]. *)
Definition SIM_LOOP_body (loop_fn : value) (this : Engine) (pg : Page)
    : completion (Page * list event) :=
  if strict_eq (state this) (prop (states pg) "pause") then ((pg, []), Return ())
  else if is_function loop_fn then ((pg, [loop_called loop_fn]), Return ())
  else ((pg, []), Throw not_a_function).

(** A bound loop, called with [this]. *)
Definition run_task (t : task) (this : Engine) (pg : Page) : completion (Page * list event) :=
  match t with
  | RENDER_LOOP f => RENDER_LOOP_body f this pg
  | SIM_LOOP f => SIM_LOOP_body f this pg
  end.

(** [togglePause ()] *)
Definition togglePause (this : Engine) (pg : Page) : completion (Engine * Page * list event) :=
  if strict_eq (state this) (prop (states pg) "pause") then
    match setState (prop (states pg) "play") this pg with
    | ((this', pg'), Throw e) => ((this', pg', []), Throw e)
    | ((this', pg'), Return _) =>
        match render this' with
        | None => ((this', pg', []), Throw render_undefined)
        | Some t =>
            match run_task t this' pg' with
            | ((pg'', evs), Throw e) => ((this', pg'', evs), Throw e)
            | ((pg'', evs), Return _) =>
                ((this', pg'', evs ++ [console_log "Unpaused"]), Return ())
            end
        end
    end
  else
    match setState (prop (states pg) "pause") this pg with
    | ((this', pg'), Throw e) => ((this', pg', []), Throw e)
    | ((this', pg'), Return _) => ((this', pg', [console_log "Paused"]), Return ())
    end.

End Part000Loops.

(** * Vocabulary of the statements *)

(** The symbolic names of the states: the keys of [const states]. *)
Definition state_names : list string :=
  ["init"; "start"; "play"; "pause"; "end"; "last"].

(** [v] is a symbolic state name. *)
Definition is_state_name (v : value) : bool :=
  match v with
  | VStr k => existsb (String.eqb k) state_names
  | _ => false
  end.

(** [v] is one of the values the table holds. *)
Definition is_state_value (t : table) (v : value) : bool :=
  existsb (fun w => strict_eq w v) (values t).

(** A primitive: neither an object nor a function. *)
Definition primitive (v : value) : bool :=
  match v with
  | VObj _ | VFun _ => false
  | _ => true
  end.

(** The values an engine of [part_000] and the table's [last] can hold:
    the five state numbers and the initial null of [last]. *)
Definition part000_states : list value :=
  [VNum (num 0); VNum (num 1); VNum (num 2); VNum (num 3); VNum (num 4); VNull].

(** The call of [randomInRange] returned a number. *)
Definition returns_number (ry : result value) : bool :=
  match ry with
  | Return v => is_number v
  | Throw _ => false
  end.

(** The call of [randomInRange] threw. *)
Definition threw (ry : result value) : bool :=
  match ry with
  | Return _ => false
  | Throw _ => true
  end.

(** What [emit] never writes: everything but the particle list. *)
Definition config (e : Part000.ParticleEmitter) :=
  (Part000.limit e, Part000.color e, Part000.size e, Part000.source e,
   Part000.spread e, Part000.speed e).

(** A coordinate a setter takes: left out, or a number. *)
Definition omitted_or_number (v : value) : bool :=
  match v with
  | VUndefined | VNum _ => true
  | _ => false
  end.

(** The coordinate a setter stores: the number given, or else the current
    one. *)
Definition given_or (v : value) (current : Qc) : Qc :=
  match v with
  | VNum q => q
  | _ => current
  end.

(** * Sample inputs *)

(** Objects over doubles: one at (0.5, -2) with velocity zero and
    acceleration 0.3; one at (0.1, 7) with velocity (3, 4) and
    acceleration 0; one at (0.1, 1) with velocity (0.2, 3) and
    acceleration 1; one with velocity (Infinity, 0) and acceleration 0. *)
Definition resting_double : Doubles.GameObject :=
  Doubles.set_position
    {| Doubles.x := Doubles.literal (1 # 2); Doubles.y := Doubles.literal (-2 # 1) |}
    (Doubles.set_acceleration (Doubles.literal (3 # 10)) Doubles.blank).

Definition halted_double : Doubles.GameObject :=
  Doubles.set_position
    {| Doubles.x := Doubles.literal (1 # 10); Doubles.y := Doubles.literal (7 # 1) |}
    (Doubles.set_velocity
       {| Doubles.x := Doubles.literal (3 # 1); Doubles.y := Doubles.literal (4 # 1) |}
       Doubles.blank).

Definition drifting_double : Doubles.GameObject :=
  Doubles.set_position
    {| Doubles.x := Doubles.literal (1 # 10); Doubles.y := Doubles.literal (1 # 1) |}
    (Doubles.set_velocity
       {| Doubles.x := Doubles.literal (2 # 10); Doubles.y := Doubles.literal (3 # 1) |}
       (Doubles.set_acceleration (Doubles.literal (1 # 1)) Doubles.blank)).

Definition runaway_double : Doubles.GameObject :=
  Doubles.set_velocity {| Doubles.x := Doubles.PInf; Doubles.y := Doubles.Fin 0%Qc |}
    Doubles.blank.

(** An object at rest: velocity zero, acceleration one half. *)
Definition resting : GameObject :=
  set_position {| x := num 7; y := num 9 |} (set_acceleration (Q2Qc (1 # 2)) blank).

Definition sample_size : Size :=
  {| width := VNum (num 640); height := VNum (num 480) |}.

Definition sample_canvas : HTMLCanvasElement :=
  {| el_width := VUndefined; el_height := VUndefined |}.

(** The argument [{ loop: f1, render: f2 }] of [start]. *)
Definition sample_callbacks : list (string * value) :=
  [("loop", VFun 1); ("render", VFun 2)].

(** The engines the two constructors build on a freshly loaded page. *)
Definition fresh_index : Index.Engine :=
  {| Index.canvas_el := {| el_width := VNum (num 640); el_height := VNum (num 480) |};
     Index.canvas_size := sample_size;
     Index.state := VStr "INIT";
     Index.render := None |}.

Definition fresh_part000 : Part000.Engine :=
  {| Part000.sizes := sample_size;
     Part000.canvas := {| el_width := VNum (num 640); el_height := VNum (num 480) |};
     Part000.state := VNum (num 0);
     Part000.render := None |}.

(** The settings [{ position: {} }]. *)
Definition settings_position_only : value := VObj [("position", VObj [])].

(** The emitter [createEmitter (3, { position: {} })] builds. *)
Definition sample_emitter : Part000.ParticleEmitter :=
  {| Part000.limit := 3;
     Part000.color := VStr "black";
     Part000.size := VNum (num 2);
     Part000.source := (VNum (num 0), VNum (num 0));
     Part000.spread := (VNum (num 3), VNum (num (-3)));
     Part000.speed := num 10;
     Part000.particles := [] |}.

Definition sample_draws : Index.draws :=
  {| Index.for_velocity := Q2Qc (1 # 2); Index.for_color := Q2Qc (1 # 3) |}.

(** The emitter [ParticleEmitter (3)] of [index.js] builds with these
    draws. *)
Definition seeded_index : Index.ParticleEmitter :=
  Eval cbv in
    match Index.new_ParticleEmitter (Some 3) sample_draws with
    | Return e => e
    | Throw _ => {| Index.limit := 3; Index.particles := [] |}
    end.

(** Engines that have been paused. *)
Definition paused_index : Index.Engine := Index.set_state (VStr "PAUSE") fresh_index.
Definition paused_part000 : Part000.Engine := Part000.set_state (VNum (num 3)) fresh_part000.

(** Engines that [start] has been called on. *)
Definition running_index : Index.Engine :=
  Index.set_render (RENDER_LOOP (VFun 2)) fresh_index.
Definition running_part000 : Part000.Engine :=
  Part000.set_state (VNum (num 1)) (Part000.set_render (RENDER_LOOP (VFun 2)) fresh_part000).

(** An engine of [part_000] and its page hold known states. *)
Definition known_part000 (ep : Part000.Engine * Page) : Prop :=
  Part000.state (fst ep) ∈ part000_states
  /\ exists last, states (snd ep) = Part000.states_with last /\ last ∈ part000_states.

(** A caller's use of an engine of [part_000]: any sequence of calls of
    its three methods, each carried out whether or not the one before
    threw. *)
Inductive method : Type :=
| call_setState (arg : value)
| call_start (props : list (string * value))
| call_togglePause.

(** The call passes no object where a state is expected. *)
Definition primitive_call (m : method) : bool :=
  match m with
  | call_setState arg => primitive arg
  | call_start _ | call_togglePause => true
  end.

Definition invoke (m : method) (ep : Part000.Engine * Page) : Part000.Engine * Page :=
  match m with
  | call_setState arg => fst (Part000.setState arg (fst ep) (snd ep))
  | call_start props => fst (Part000.start (VObj props) (fst ep) (snd ep))
  | call_togglePause => fst (fst (Part000Loops.togglePause (fst ep) (snd ep)))
  end.

Definition session (ms : list method) (ep : Part000.Engine * Page) : Part000.Engine * Page :=
  foldl (fun ep m => invoke m ep) ep ms.

(** The emitter [createEmitter (3, { position: { x: 'left' } })] builds. *)
Definition stuck_emitter : Part000.ParticleEmitter :=
  {| Part000.limit := 3;
     Part000.color := VStr "black";
     Part000.size := VNum (num 2);
     Part000.source := (VStr "left", VNum (num 0));
     Part000.spread := (VNum (num 3), VNum (num (-3)));
     Part000.speed := num 10;
     Part000.particles := [] |}.

(** The emitter [createEmitter (0, { position: {} })] builds. *)
Definition zero_emitter : Part000.ParticleEmitter :=
  {| Part000.limit := 0;
     Part000.color := VStr "black";
     Part000.size := VNum (num 2);
     Part000.source := (VNum (num 0), VNum (num 0));
     Part000.spread := (VNum (num 3), VNum (num (-3)));
     Part000.speed := num 10;
     Part000.particles := [] |}.

(** What every particle of an emitter of [part_000] has from the emitter. *)
Definition particle_of (e : Part000.ParticleEmitter) (p : GameObject) : Prop :=
  acceleration p = num 1
  /\ x (velocity p) = Part000.speed e
  /\ color p = Part000.color e
  /\ size p = {| width := Part000.size e; height := Part000.size e |}
  /\ methods_render p = Some ParticleRender.

(** * Properties *)

(** ** GameObject *)

Section GameObjectFacts.

Variable this : GameObject.

Lemma lt_spec (a b : Qc) : lt a b = true <-> (a < b)%Qc.
Proof.
  unfold lt. destruct (Qclt_le_dec a b) as [Hlt | Hle]; split; intros H;
    try done. exfalso. by apply (Qcle_not_lt _ _ Hle).
Qed.

(** C9: [move ()] writes the position only: velocity, acceleration,
    size, color and the bound draw routine are what they were. *)
Theorem move_frame :
  velocity (move this) = velocity this
  /\ acceleration (move this) = acceleration this
  /\ size (move this) = size this
  /\ color (move this) = color this
  /\ methods_render (move this) = methods_render this.
Proof. repeat split. Qed.

End GameObjectFacts.

(** ** GameObject: the values of the numbers *)

Section DoubleFacts.

Import Doubles.

Lemma round_zero : round 0%Qc = Fin 0%Qc.
Proof. unfold round. destruct (Qc_eq_dec 0%Qc 0%Qc); [reflexivity | contradiction]. Qed.

Lemma representable_round (q : Qc) : representable (Fin q) = true -> round q = Fin q.
Proof.
  cbn [representable same]. destruct (round q) as [r | | |]; try discriminate.
  intros H. apply Qc_eq_bool_correct in H. by rewrite H.
Qed.

(** The rounding at work: 0.1 + 0.2 is the double 1351079888211149 / 2^52,
    printed 0.30000000000000004, and not the double nearest to 0.3. *)
Lemma add_tenth_fifth :
  same (add (literal (1 # 10)) (literal (2 # 10)))
       (Fin (Q2Qc (1351079888211149 # 4503599627370496))) = true
  /\ same (add (literal (1 # 10)) (literal (2 # 10))) (literal (3 # 10)) = false
  /\ literal (Qpower (2 # 1) 1024) = PInf
  /\ same (literal (9007199254740993 # 1)) (Fin (num 9007199254740992)) = true.
Proof. repeat split; vm_compute; reflexivity. Qed.

(** Zero times a finite number is zero. *)
Lemma mul_zero_l (a : number) : finite a = true -> mul (Fin 0%Qc) a = Fin 0%Qc.
Proof.
  destruct a as [q | | |]; try discriminate. intros _. cbn [mul].
  replace (0 * q)%Qc with 0%Qc by ring. apply round_zero.
Qed.

Lemma mul_zero_r (v : number) : finite v = true -> mul v (Fin 0%Qc) = Fin 0%Qc.
Proof.
  destruct v as [q | | |]; try discriminate. intros _. cbn [mul].
  replace (q * 0)%Qc with 0%Qc by ring. apply round_zero.
Qed.

(** Zero times an infinity or NaN is NaN. *)
Lemma mul_zero_l_nan (a : number) : finite a = false -> mul (Fin 0%Qc) a = NaN.
Proof. destruct a; try discriminate; reflexivity. Qed.

Lemma mul_zero_r_nan (v : number) : finite v = false -> mul v (Fin 0%Qc) = NaN.
Proof. destruct v; try discriminate; reflexivity. Qed.

(** Adding zero to a double gives the double. *)
Lemma add_zero_r (p : number) : representable p = true -> add p (Fin 0%Qc) = p.
Proof.
  destruct p as [q | | |]; try reflexivity. intros H. cbn [add].
  replace (q + 0)%Qc with q by ring. by apply representable_round.
Qed.

Lemma add_nan_r (p : number) : add p NaN = NaN.
Proof. by destruct p. Qed.

(** A number that is neither below 0 nor above 1 is in [0, 1] or NaN. *)
Lemma not_out_of_unit_interval (n : number) :
  Doubles.lt n (Fin 0%Qc) = false -> Doubles.gt n (Fin 1%Qc) = false ->
  n = NaN \/ exists q, n = Fin q /\ (0 <= q)%Qc /\ (q <= 1)%Qc.
Proof.
  destruct n as [q | | |]; try discriminate; [| by left].
  unfold Doubles.gt. cbn [Doubles.lt]. intros H0 H1. right. exists q.
  split; [reflexivity |]. split.
  - apply Qcnot_lt_le. intros H. apply lt_spec in H. congruence.
  - apply Qcnot_lt_le. intros H. apply lt_spec in H. congruence.
Qed.

(** C3 (amended): [move ()] sets the position to position + velocity *
    acceleration on each axis, in the arithmetic of doubles.  The position
    is left as it is, up to the sign of a zero coordinate, when the
    velocity is zero on both axes and the acceleration is finite, and when
    the acceleration is zero and the velocity is finite on both axes.
    With a zero on one side of the product and an infinity or NaN on the
    other, the product is NaN and so is the coordinate.  The coordinates
    are taken to be doubles, as every number of the scripts is. *)
Theorem move_position (this : GameObject) :
  position (move this)
    = {| x := add (x (position this)) (mul (x (velocity this)) (acceleration this));
         y := add (y (position this)) (mul (y (velocity this)) (acceleration this)) |}
  /\ (representable (x (position this)) = true ->
      representable (y (position this)) = true ->
      (velocity this = {| x := Fin 0%Qc; y := Fin 0%Qc |}
       /\ finite (acceleration this) = true)
      \/ (acceleration this = Fin 0%Qc
          /\ finite (x (velocity this)) = true
          /\ finite (y (velocity this)) = true) ->
      position (move this) = position this)
  /\ (velocity this = {| x := Fin 0%Qc; y := Fin 0%Qc |} ->
      finite (acceleration this) = false ->
      position (move this) = {| x := NaN; y := NaN |})
  /\ (acceleration this = Fin 0%Qc ->
      (finite (x (velocity this)) = false -> x (position (move this)) = NaN)
      /\ (finite (y (velocity this)) = false -> y (position (move this)) = NaN)).
Proof.
  destruct this as [[Px Py] [Vx Vy] A sz c m].
  cbn [move position velocity acceleration set_position x y].
  split; [reflexivity |]. split; [| split].
  - intros Hx Hy [[Hv Ha] | [Ha [Hvx Hvy]]].
    + injection Hv as -> ->. by rewrite (mul_zero_l A Ha), !add_zero_r.
    + subst A. by rewrite (mul_zero_r Vx Hvx), (mul_zero_r Vy Hvy), !add_zero_r.
  - intros Hv Ha. injection Hv as -> ->.
    by rewrite (mul_zero_l_nan A Ha), !add_nan_r.
  - intros ->. split; intros Hv; by rewrite (mul_zero_r_nan _ Hv), add_nan_r.
Qed.

(** C4: [setAcceleration (a)] throws when [a] is not a number and when it
    is a number below 0 or above 1, an infinity included; -0.1 and 1.1
    throw.  For a number that is neither, it returns the object with the
    acceleration set to [a] and every other field as it was; 0 and 1 are
    such numbers.  So is NaN, for which both comparisons are false: it is
    stored, against the message of the range check. *)
Theorem setAcceleration_contract (a : value) (this : GameObject) :
  let stored n :=
    {| position := position this; velocity := velocity this; acceleration := n;
       size := size this; color := color this;
       methods_render := methods_render this |} in
  (typeof a <> "number" ->
     setAcceleration a this
       = Throw (Error "setAcceleration must be called with a number." []))
  /\ (forall n, a = VNum n ->
        Doubles.lt n (Fin 0%Qc) = true \/ Doubles.gt n (Fin 1%Qc) = true ->
        setAcceleration a this
          = Throw (Error "Acceleration must be between 0 and 1." []))
  /\ (forall n, a = VNum n ->
        Doubles.lt n (Fin 0%Qc) = false -> Doubles.gt n (Fin 1%Qc) = false ->
        setAcceleration a this = Return (stored n)
        /\ (n = NaN \/ exists q, n = Fin q /\ (0 <= q)%Qc /\ (q <= 1)%Qc))
  /\ setAcceleration (VNum NaN) this = Return (stored NaN)
  /\ setAcceleration (VNum PInf) this
       = Throw (Error "Acceleration must be between 0 and 1." [])
  /\ setAcceleration (VNum NInf) this
       = Throw (Error "Acceleration must be between 0 and 1." [])
  /\ setAcceleration (VNum (literal (-1 # 10))) this
       = Throw (Error "Acceleration must be between 0 and 1." [])
  /\ setAcceleration (VNum (literal (11 # 10))) this
       = Throw (Error "Acceleration must be between 0 and 1." [])
  /\ setAcceleration (VNum (Fin 0%Qc)) this = Return (stored (Fin 0%Qc))
  /\ setAcceleration (VNum (Fin 1%Qc)) this = Return (stored (Fin 1%Qc)).
Proof.
  intros stored.
  split; [| split; [| split; [| split; [| split; [| split; [| split; [| split; [| split]]]]]]]].
  - destruct a; cbn; intros H; done.
  - intros n -> H. cbn [setAcceleration].
    destruct H as [-> | ->]; [reflexivity | by rewrite orb_true_r].
  - intros n -> H0 H1. split; [| by apply not_out_of_unit_interval].
    cbn [setAcceleration]. by rewrite H0, H1.
  - reflexivity.
  - reflexivity.
  - reflexivity.
  - vm_compute. reflexivity.
  - vm_compute. reflexivity.
  - reflexivity.
  - reflexivity.
Qed.

End DoubleFacts.

(** C3: [setVelocity ({ x: Infinity })] returns; on the new object, whose
    acceleration is 0, [move ()] then turns the x coordinate from 0 into
    NaN. *)
Lemma move_infinite_velocity :
  exists o,
    Doubles.setVelocity (Doubles.VObj [("x", Doubles.VNum Doubles.PInf)]) Doubles.blank
      = Return o
    /\ Doubles.acceleration o = Doubles.Fin 0%Qc
    /\ Doubles.position o = {| Doubles.x := Doubles.Fin 0%Qc; Doubles.y := Doubles.Fin 0%Qc |}
    /\ Doubles.position (Doubles.move o)
         = {| Doubles.x := Doubles.NaN; Doubles.y := Doubles.Fin 0%Qc |}
    /\ Doubles.position (Doubles.move o) <> Doubles.position o.
Proof.
  eexists. split; [reflexivity |]. split; [reflexivity |]. split; [reflexivity |].
  split; [reflexivity | discriminate].
Qed.

Lemma move_position_witness :
  Doubles.position (Doubles.move resting_double) = Doubles.position resting_double
  /\ Doubles.position (Doubles.move halted_double) = Doubles.position halted_double
  /\ Doubles.x (Doubles.position (Doubles.move runaway_double)) = Doubles.NaN
  /\ Doubles.same (Doubles.x (Doubles.position (Doubles.move drifting_double)))
       (Doubles.Fin (Q2Qc (1351079888211149 # 4503599627370496))) = true
  /\ Doubles.same (Doubles.y (Doubles.position (Doubles.move drifting_double)))
       (Doubles.Fin (num 4)) = true.
Proof.
  split; [| split; [| split; [| split]]].
  - apply (proj1 (proj2 (move_position resting_double)));
      [reflexivity | reflexivity |].
    left. split; reflexivity.
  - apply (proj1 (proj2 (move_position halted_double)));
      [reflexivity | reflexivity |].
    right. split; [reflexivity |]. split; reflexivity.
  - apply (proj2 (proj2 (proj2 (move_position runaway_double))));
      reflexivity.
  - rewrite (proj1 (move_position drifting_double)). vm_compute. reflexivity.
  - rewrite (proj1 (move_position drifting_double)). vm_compute. reflexivity.
Defined.

Lemma setAcceleration_contract_witness :
  Doubles.setAcceleration (Doubles.VStr "fast") resting_double
    = Throw (Error "setAcceleration must be called with a number." [])
  /\ Doubles.setAcceleration (Doubles.VNum (Doubles.literal (2 # 1))) resting_double
       = Throw (Error "Acceleration must be between 0 and 1." [])
  /\ Doubles.acceleration resting_double = Doubles.literal (3 # 10)
  /\ (exists o,
        Doubles.setAcceleration (Doubles.VNum (Doubles.literal (1 # 2))) resting_double
          = Return o
        /\ Doubles.acceleration o = Doubles.literal (1 # 2)
        /\ Doubles.position o = Doubles.position resting_double)
  /\ (exists o,
        Doubles.setAcceleration (Doubles.VNum Doubles.NaN) resting_double = Return o
        /\ Doubles.acceleration o = Doubles.NaN).
Proof.
  split; [| split; [| split; [| split]]].
  - apply (proj1 (setAcceleration_contract (Doubles.VStr "fast") resting_double)).
    discriminate.
  - apply (proj1 (proj2 (setAcceleration_contract
                           (Doubles.VNum (Doubles.literal (2 # 1))) resting_double))
             (Doubles.literal (2 # 1))).
    + reflexivity.
    + right. reflexivity.
  - reflexivity.
  - destruct (proj1 (proj2 (proj2 (setAcceleration_contract
                 (Doubles.VNum (Doubles.literal (1 # 2))) resting_double)))
               (Doubles.literal (1 # 2)) eq_refl eq_refl eq_refl) as [Hset _].
    eexists. split; [exact Hset |]. split; reflexivity.
  - destruct (proj1 (proj2 (proj2 (setAcceleration_contract
                 (Doubles.VNum Doubles.NaN) resting_double)))
               Doubles.NaN eq_refl eq_refl eq_refl) as [Hset _].
    eexists. split; [exact Hset | reflexivity].
Defined.

(** ** Engine.random *)

Section RandomFacts.

Import Part000.

(** The floor of a draw of [0, 1) scaled by a positive count [n] is an
    index below [n]. *)
Lemma floor_scaled_draw (r : Qc) (n : Z) :
  (0 <= r)%Qc -> (r < 1)%Qc -> 0 < n ->
  0 <= Qfloor (r * Q2Qc (inject_Z n))%Qc < n.
Proof.
  intros H0 H1 Hn.
  assert (E : (this (r * Q2Qc (inject_Z n))%Qc == this r * inject_Z n)%Q).
  { cbn. rewrite Qred_correct. by rewrite (Qred_correct (inject_Z n)). }
  rewrite E. unfold Qcle, Qclt in H0, H1. cbn in H0, H1.
  assert (Hn' : (0 < inject_Z n)%Q).
  { change (inject_Z 0 < inject_Z n)%Q. by rewrite <- Zlt_Qlt. }
  split.
  - change 0 with (Qfloor (inject_Z 0)) at 1.
    apply Qfloor_resp_le. apply Qmult_le_0_compat; [done | by apply Qlt_le_weak].
  - rewrite Zlt_Qlt. eapply Qle_lt_trans; [apply Qfloor_le |].
    rewrite <- (Qmult_1_l (inject_Z n)) at 2.
    by apply Qmult_lt_compat_r.
Qed.


End RandomFacts.


Example inRange_5_2_three_quarters : Part000.inRange (Q2Qc (3 # 4)) 5 (Some 2) = 5.
Proof. reflexivity. Qed.

(** ** The states table *)

Section TableFacts.

Lemma strict_eq_num (v : value) (q : Qc) : strict_eq v (VNum q) = true <-> v = VNum q.
Proof.
  destruct v; cbn; try (split; [discriminate | discriminate]).
  destruct (Qc_eq_dec q0 q); split; intros H; try done; congruence.
Qed.

Lemma strict_eq_str (v : value) (s : string) : strict_eq v (VStr s) = true <-> v = VStr s.
Proof.
  destruct v; cbn; try (split; [discriminate | discriminate]).
  destruct (String.eqb_spec s0 s); split; intros H; try done; congruence.
Qed.

Lemma strict_eq_eq (a b : value) : strict_eq a b = true -> a = b.
Proof.
  destruct a, b; cbn; try discriminate; try done.
  - intros H. f_equal. by apply Bool.eqb_prop.
  - destruct (Qc_eq_dec q q0); [congruence | discriminate].
  - intros H. f_equal. by apply String.eqb_eq.
  - intros H. f_equal. by apply Nat.eqb_eq.
Qed.

Lemma indexOf_from_spec (vals : list value) (v : value) :
  forall i, 0 <= i ->
    if existsb (fun w => strict_eq w v) vals
    then i <= indexOf_from i vals v
    else indexOf_from i vals v = -1.
Proof.
  induction vals as [| w rest IH]; intros i Hi; cbn; [done |].
  destruct (strict_eq w v); cbn; [lia |].
  specialize (IH (i + 1) ltac:(lia)).
  destruct (existsb _ rest); lia.
Qed.

(** [~vals.indexOf (v)] is truthy exactly when [v] is an element. *)
Lemma bitnot_indexOf (vals : list value) (v : value) :
  bitnot_truthy (indexOf vals v) = existsb (fun w => strict_eq w v) vals.
Proof.
  unfold bitnot_truthy, indexOf.
  pose proof (indexOf_from_spec vals v 0 ltac:(lia)) as H.
  destruct (existsb _ vals).
  - apply negb_true_iff, Z.eqb_neq. unfold Z.lnot. lia.
  - rewrite H. reflexivity.
Qed.

Lemma hasOwnProperty_index (last arg : value) :
  hasOwnProperty (Index.states_with last) arg = is_state_name arg.
Proof.
  destruct arg as [| | [|] | | k | |]; try reflexivity.
  unfold hasOwnProperty; cbn.
  repeat (destruct (String.eqb k _); [reflexivity |]). reflexivity.
Qed.

Lemma hasOwnProperty_part000 (last arg : value) :
  hasOwnProperty (Part000.states_with last) arg = is_state_name arg.
Proof.
  destruct arg as [| | [|] | | k | |]; try reflexivity.
  unfold hasOwnProperty; cbn.
  repeat (destruct (String.eqb k _); [reflexivity |]). reflexivity.
Qed.

Lemma assign_last_index (last v : value) :
  assign "last" v (Index.states_with last) = Index.states_with v.
Proof. reflexivity. Qed.

Lemma assign_last_part000 (last v : value) :
  assign "last" v (Part000.states_with last) = Part000.states_with v.
Proof. reflexivity. Qed.

Lemma prop_last_part000 (last : value) :
  prop (Part000.states_with last) "last" = last.
Proof. reflexivity. Qed.

End TableFacts.

(** ** Engine.setState *)

Section SetStateFacts.

Variable last : value.

(** [setState] of [part_000] on a table of the script, by cases. *)
Lemma setState_part000_cases (pg : Page) (arg : value) (this : Part000.Engine) :
  states pg = Part000.states_with last ->
  let recorded := set_states (Part000.states_with (Part000.state this)) pg in
  Part000.setState arg this pg =
    if is_state_value (states pg) arg
    then ((Part000.set_state arg this, recorded), Return ())
    else if is_state_name arg
    then ((Part000.set_state (index (states recorded) arg) this, recorded), Return ())
    else ((this, pg), Throw (Error "Cannot find state " (arg :: values (states pg)))).
Proof.
  destruct pg as [t iv af]. cbn [states]. intros ->. cbn zeta.
  unfold Part000.setState. rewrite bitnot_indexOf.
  cbn [states set_states intervals animation_frames].
  rewrite !assign_last_part000, hasOwnProperty_part000, prop_last_part000.
  reflexivity.
Qed.

(** [setState] of [index.js] on a table of the script, by cases. *)
Lemma setState_index_cases (pg : Page) (arg : value) (this : Index.Engine) :
  states pg = Index.states_with last ->
  let recorded := set_states (Index.states_with (Index.state this)) pg in
  Index.setState arg this pg =
    if is_state_name arg
    then ((Index.set_state (index (states recorded) arg) this, recorded), Return ())
    else ((this, pg), Throw (Error "No state found for " [arg])).
Proof.
  destruct pg as [t iv af]. cbn [states]. intros ->. cbn zeta.
  unfold Index.setState. cbn [states set_states intervals animation_frames].
  rewrite hasOwnProperty_index, assign_last_index. reflexivity.
Qed.

(** The engine state and the table's [last] of [part_000] stay among the
    state numbers and null, whatever [setState] is called with: [last] is
    never the string ['last']. *)
Lemma setState_part000_known (pg : Page) (arg : value) (this : Part000.Engine) :
  states pg = Part000.states_with last ->
  last ∈ part000_states ->
  Part000.state this ∈ part000_states ->
  Part000.state (fst (fst (Part000.setState arg this pg))) ∈ part000_states
  /\ exists last',
       states (snd (fst (Part000.setState arg this pg))) = Part000.states_with last'
       /\ last' ∈ part000_states.
Proof.
  intros Hpg Hlast Hstate.
  rewrite (setState_part000_cases pg arg this Hpg).
  destruct (is_state_value (states pg) arg) eqn:Hv.
  - cbn. split; [| by eexists].
    unfold is_state_value in Hv. rewrite Hpg in Hv.
    apply existsb_exists in Hv as [w [Hin Heq]]. apply strict_eq_eq in Heq as <-.
    cbn in Hin. unfold part000_states. rewrite !elem_of_cons.
    destruct Hin as [<- | [<- | [<- | [<- | [<- | [<- | []]]]]]]; auto 10.
    unfold part000_states in Hlast. by rewrite !elem_of_cons in Hlast.
  - destruct (is_state_name arg) eqn:Hn.
    + cbn [fst snd]. split; [| by eexists].
      destruct arg as [| | | | k | |]; try discriminate. cbn in Hn.
      cbn [Part000.state Part000.set_state states set_states].
      unfold index, toPropertyKey, prop, Part000.states_with. cbn [lookup_prop].
      unfold part000_states in Hstate. rewrite !elem_of_cons in Hstate.
      repeat (destruct (String.eqb k _);
              [cbn; unfold part000_states; rewrite !elem_of_cons; tauto |]).
      discriminate.
    + cbn. split; [done | by exists last].
Qed.

(** C7 (amended): for a primitive argument.  In [part_000], [setState]
    takes a value the table holds or a symbolic name, and throws for
    anything else, then leaving the engine and the table as they were; in
    [index.js] it takes a symbolic name only and throws for anything else.
    When it returns, the engine's state is the value given, or the table's
    value under the name given, no other field of the engine is written,
    and the table's [last] is the state the engine had before the call. *)
Theorem setState_contract (pg : Page) (arg : value) :
  primitive arg = true ->
  (forall this : Part000.Engine,
     states pg = Part000.states_with last ->
     let recorded :=
       {| states := Part000.states_with (Part000.state this);
          intervals := intervals pg; animation_frames := animation_frames pg |} in
     let engine_in s :=
       {| Part000.sizes := Part000.sizes this; Part000.canvas := Part000.canvas this;
          Part000.state := s; Part000.render := Part000.render this |} in
     (is_state_value (states pg) arg = true ->
        Part000.setState arg this pg = ((engine_in arg, recorded), Return ()))
     /\ (is_state_value (states pg) arg = false -> is_state_name arg = true ->
           exists k,
             arg = VStr k
             /\ Part000.setState arg this pg
                = ((engine_in (prop (states recorded) k), recorded), Return ()))
     /\ (is_state_value (states pg) arg = false -> is_state_name arg = false ->
           Part000.setState arg this pg
             = ((this, pg), Throw (Error "Cannot find state " (arg :: values (states pg)))))
     /\ prop (states recorded) "last" = Part000.state this)
  /\ (forall this : Index.Engine,
        states pg = Index.states_with last ->
        let recorded :=
          {| states := Index.states_with (Index.state this);
             intervals := intervals pg; animation_frames := animation_frames pg |} in
        let engine_in s :=
          {| Index.canvas_el := Index.canvas_el this;
             Index.canvas_size := Index.canvas_size this;
             Index.state := s; Index.render := Index.render this |} in
        (is_state_name arg = true ->
           exists k,
             arg = VStr k
             /\ Index.setState arg this pg
                = ((engine_in (prop (states recorded) k), recorded), Return ()))
        /\ (is_state_name arg = false ->
              Index.setState arg this pg
                = ((this, pg), Throw (Error "No state found for " [arg])))
        /\ prop (states recorded) "last" = Index.state this).
Proof.
  intros _. split; intros this Hpg recorded engine_in.
  - rewrite (setState_part000_cases pg arg this Hpg).
    split; [| split; [| split]].
    + intros ->. reflexivity.
    + intros -> Hname. destruct arg as [| | | | k | |]; try discriminate.
      rewrite Hname. exists k. split; reflexivity.
    + intros -> ->. reflexivity.
    + reflexivity.
  - rewrite (setState_index_cases pg arg this Hpg).
    split; [| split].
    + intros Hname. destruct arg as [| | | | k | |]; try discriminate.
      rewrite Hname. exists k. split; reflexivity.
    + intros ->. reflexivity.
    + reflexivity.
Qed.

(** C10 (amended): [setState ('last')] does not throw; the table's [last]
    is overwritten with the current state before it is read, so the engine
    keeps the state it has, and that state is what the table remembers. *)
Theorem setState_last (pg : Page) :
  (forall this : Part000.Engine,
     states pg = Part000.states_with last -> last <> VStr "last" ->
     Part000.setState (VStr "last") this pg
       = ((this, set_states (Part000.states_with (Part000.state this)) pg), Return ()))
  /\ (forall this : Index.Engine,
        states pg = Index.states_with last ->
        Index.setState (VStr "last") this pg
          = ((this, set_states (Index.states_with (Index.state this)) pg), Return ())).
Proof.
  split.
  - intros this Hpg Hlast.
    rewrite (setState_part000_cases pg (VStr "last") this Hpg).
    assert (Hv : is_state_value (states pg) (VStr "last") = false).
    { rewrite Hpg. unfold is_state_value. cbn.
      destruct (strict_eq last (VStr "last")) eqn:E; [| reflexivity].
      by apply strict_eq_str in E. }
    rewrite Hv. cbn. destruct this. reflexivity.
  - intros this Hpg.
    rewrite (setState_index_cases pg (VStr "last") this Hpg).
    cbn. destruct this. reflexivity.
Qed.

End SetStateFacts.

(** ** Engine.start *)

Section StartFacts.

Variables (last : value) (props : list (string * value)).

Let loop_fn : value := prop props "loop".
Let render_fn : value := prop props "render".

(** The page once [start] has called [setInterval] and
    [requestAnimationFrame]. *)
Let installed (pg : Page) : Page :=
  requestAnimationFrame (RENDER_LOOP render_fn) (setInterval (SIM_LOOP loop_fn) 50 pg).

(** C5 (amended): [start ({ loop, render })] does nothing when the state is
    not INIT; in state INIT it stores the render loop, sets the 50 ms
    interval of the simulation loop and requests the first frame, after
    which [part_000] moves the state to START, INIT being remembered as the
    previous state, while [index.js] leaves the state at INIT. *)
Theorem start_contract (pg : Page) :
  (forall this : Part000.Engine,
     states pg = Part000.states_with last ->
     (Part000.state this <> VNum (num 0) ->
        Part000.start (VObj props) this pg = ((this, pg), Return ()))
     /\ (Part000.state this = VNum (num 0) ->
           Part000.start (VObj props) this pg
             = ((Part000.set_state (VNum (num 1))
                   (Part000.set_render (RENDER_LOOP render_fn) this),
                 set_states (Part000.states_with (VNum (num 0))) (installed pg)),
                Return ())))
  /\ (forall this : Index.Engine,
        states pg = Index.states_with last ->
        (Index.state this <> VStr "INIT" ->
           Index.start (VObj props) this pg = ((this, pg), Return ()))
        /\ (Index.state this = VStr "INIT" ->
              Index.start (VObj props) this pg
                = ((Index.set_render (RENDER_LOOP render_fn) this, installed pg),
                   Return ())
              /\ Index.state (Index.set_render (RENDER_LOOP render_fn) this)
                 = VStr "INIT")).
Proof.
  split; intros this Hpg.
  - unfold Part000.start. cbn [destructure_loop_render get mbind result_bind].
    rewrite Hpg. change (prop (Part000.states_with last) "init") with (VNum (num 0)).
    split.
    + intros Hne. destruct (strict_eq (Part000.state this) (VNum (num 0))) eqn:E;
        [| reflexivity].
      by apply strict_eq_num in E.
    + intros Hinit. rewrite (proj2 (strict_eq_num _ _) Hinit).
      fold loop_fn render_fn.
      rewrite (setState_part000_cases last (installed pg)) by (rewrite <- Hpg; reflexivity).
      cbn [states installed requestAnimationFrame setInterval].
      rewrite Hpg. cbn -[num]. rewrite Hinit. reflexivity.
  - unfold Index.start. cbn [destructure_loop_render get mbind result_bind].
    rewrite Hpg. change (prop (Index.states_with last) "init") with (VStr "INIT").
    split.
    + intros Hne. destruct (strict_eq (Index.state this) (VStr "INIT")) eqn:E;
        [| reflexivity].
      by apply strict_eq_str in E.
    + intros Hinit. rewrite (proj2 (strict_eq_str _ _) Hinit). split; [reflexivity | exact Hinit].
Qed.

End StartFacts.

(** ** ParticleEmitter *)

Section EmitterFacts.

Lemma createParticle_config (e e' : Part000.ParticleEmitter) (pos : value)
    (ry : result value) :
  config e' = config e ->
  Part000.createParticle pos ry e' = Part000.createParticle pos ry e.
Proof.
  destruct e, e'. unfold config. cbn. intros [= -> -> -> -> -> ->]. reflexivity.
Qed.

(** With a numeric source point and a call of [randomInRange] that
    returns a number, the creation of a particle returns. *)
Lemma createParticle_returns (e : Part000.ParticleEmitter) (pos : value)
    (ry : result value) :
  is_number (fst (Part000.source e)) = true ->
  is_number (snd (Part000.source e)) = true ->
  returns_number ry = true ->
  exists p, Part000.createParticle pos ry e = Return p.
Proof.
  destruct e as [lim c sz [sx sy] sp v ps]. cbn [Part000.source fst snd].
  destruct sx; try discriminate. destruct sy; try discriminate.
  destruct ry as [vy |]; try discriminate. destruct vy; try discriminate.
  intros _ _ _. eexists. reflexivity.
Qed.

(** With a numeric source point and a call of [randomInRange] that throws,
    the creation of a particle throws what the call threw. *)
Lemma createParticle_oracle_throws (e : Part000.ParticleEmitter) (pos : value) (err : exn) :
  is_number (fst (Part000.source e)) = true ->
  is_number (snd (Part000.source e)) = true ->
  Part000.createParticle pos (Throw err) e = Throw err.
Proof.
  destruct e as [lim c sz [sx sy] sp v ps]. cbn [Part000.source fst snd].
  destruct sx; try discriminate. destruct sy; try discriminate. reflexivity.
Qed.

Lemma emit_part000_config (ry : result value) (e : Part000.ParticleEmitter) :
  config (fst (Part000.emit ry e)) = config e.
Proof.
  unfold Part000.emit.
  destruct (_ <? _); [destruct (Part000.createParticle _ _ _) |]; reflexivity.
Qed.

Lemma emit_all_part000_config (rys : list (result value)) (e : Part000.ParticleEmitter) :
  config (Part000.emit_all rys e) = config e.
Proof.
  revert e. induction rys as [| ry rys IH]; intros e; [reflexivity |].
  unfold Part000.emit_all in *. cbn [foldl]. by rewrite IH, emit_part000_config.
Qed.

Lemma emit_all_part000_snoc (rys : list (result value)) (ry : result value)
    (e : Part000.ParticleEmitter) :
  Part000.emit_all (rys ++ [ry]) e = fst (Part000.emit ry (Part000.emit_all rys e)).
Proof. unfold Part000.emit_all. by rewrite foldl_app. Qed.

(** One call keeps the list within a capacity it was within. *)
Lemma emit_part000_within (ry : result value) (e : Part000.ParticleEmitter) :
  Z.of_nat (length (Part000.particles e)) <= Part000.limit e ->
  Z.of_nat (length (Part000.particles (fst (Part000.emit ry e))))
    <= Part000.limit (fst (Part000.emit ry e)).
Proof.
  intros H. unfold Part000.emit. rewrite length_fmap.
  destruct (Z.ltb_spec (Z.of_nat (length (Part000.particles e))) (Part000.limit e)).
  - destruct (Part000.createParticle _ _ _); cbn; rewrite ?length_app, ?length_fmap; cbn; lia.
  - cbn. destruct (Part000.particles e); cbn in *; rewrite ?length_fmap; lia.
Qed.

Lemma emit_index_within (d : Index.draws) (e : Index.ParticleEmitter) :
  Z.of_nat (length (Index.particles e)) <= Index.limit e ->
  Z.of_nat (length (Index.particles (fst (Index.emit d e))))
    <= Index.limit (fst (Index.emit d e)).
Proof.
  intros H. unfold Index.emit. rewrite length_fmap.
  destruct (Z.ltb_spec (Z.of_nat (length (Index.particles e))) (Index.limit e)).
  - destruct (Index.createParticle _ _ _); cbn; rewrite ?length_app, ?length_fmap; cbn; lia.
  - cbn. destruct (Index.particles e); cbn in *; rewrite ?length_fmap; lia.
Qed.

Lemma emit_index_limit (d : Index.draws) (e : Index.ParticleEmitter) :
  Index.limit (fst (Index.emit d e)) = Index.limit e.
Proof.
  unfold Index.emit.
  destruct (_ <? _); [destruct (Index.createParticle _ _ _) |]; reflexivity.
Qed.

Lemma emit_part000_limit (ry : result value) (e : Part000.ParticleEmitter) :
  Part000.limit (fst (Part000.emit ry e)) = Part000.limit e.
Proof.
  unfold Part000.emit.
  destruct (_ <? _); [destruct (Part000.createParticle _ _ _) |]; reflexivity.
Qed.

Lemma new_ParticleEmitter_seeded (lim : option Z) (d : Index.draws) (e : Index.ParticleEmitter) :
  Index.new_ParticleEmitter lim d = Return e ->
  length (Index.particles e) = 1%nat /\ Index.limit e = default 25 lim.
Proof.
  unfold Index.new_ParticleEmitter.
  destruct (Index.createParticle _ _ _); cbn; [| discriminate].
  intros [= <-]. split; reflexivity.
Qed.

(** C2 (amended): when the capacity is at least the number of particles
    the emitter is built with (one in [index.js], which always seeds the
    list; one or none in [part_000]), the list never holds more particles
    than the capacity, after any number of [emit ()] calls. *)
Theorem particles_within_capacity :
  (forall lim d ds e,
     Index.new_ParticleEmitter lim d = Return e ->
     1 <= Index.limit e ->
     Z.of_nat (length (Index.particles (Index.emit_all ds e))) <= Index.limit e)
  /\ (forall lim settings ry rys e,
        Part000.createEmitter lim settings ry = Return e ->
        Z.of_nat (length (Part000.particles e)) <= Part000.limit e ->
        Z.of_nat (length (Part000.particles (Part000.emit_all rys e)))
          <= Part000.limit e).
Proof.
  split.
  - intros lim d ds e Hnew Hcap.
    apply new_ParticleEmitter_seeded in Hnew as [Hlen _].
    assert (H : Z.of_nat (length (Index.particles e)) <= Index.limit e) by lia.
    clear Hlen Hcap. revert e H.
    induction ds as [| d' ds IH]; intros e H; [exact H |].
    unfold Index.emit_all in *. cbn [foldl].
    rewrite <- (emit_index_limit d' e). apply IH. by apply emit_index_within.
  - intros lim settings ry rys e _. revert e.
    induction rys as [| ry' rys IH]; intros e H; [exact H |].
    unfold Part000.emit_all in *. cbn [foldl].
    rewrite <- (emit_part000_limit ry' e). apply IH. by apply emit_part000_within.
Qed.

End EmitterFacts.

Section SteadyState.

Import Part000.

Variables (lim : Z) (e : ParticleEmitter).
Hypothesis capacity_positive : 1 <= lim.
Hypothesis limit_e : limit e = lim.
Hypothesis source_x_number : is_number (fst (source e)) = true.
Hypothesis source_y_number : is_number (snd (source e)) = true.

(** One call on an emitter configured as [e]: one more particle below the
    capacity, one less otherwise. *)
Lemma emit_length_step (ry : result value) (e' : ParticleEmitter) :
  config e' = config e ->
  returns_number ry = true ->
  1 <= Z.of_nat (length (particles e')) \/ Z.of_nat (length (particles e')) < lim ->
  Z.of_nat (length (particles (fst (emit ry e')))) =
    if Z.of_nat (length (particles e')) <? lim
    then Z.of_nat (length (particles e')) + 1
    else Z.of_nat (length (particles e')) - 1.
Proof.
  intros Hc Hry Hlen. unfold emit. rewrite length_fmap.
  assert (Hl : limit e' = lim).
  { rewrite <- limit_e. unfold config in Hc. congruence. }
  rewrite Hl. destruct (Z.ltb_spec (Z.of_nat (length (particles e'))) lim) as [Hlt | Hge].
  - destruct (createParticle_returns e VUndefined ry source_x_number source_y_number Hry)
      as [p Hp].
    rewrite (createParticle_config e e' _ _ Hc), Hp. cbn.
    rewrite length_app, length_fmap. cbn. lia.
  - cbn. destruct (particles e'); cbn in *; rewrite ?length_fmap; lia.
Qed.

(** The length after [n] calls, starting from an empty list. *)
Lemma emit_all_length (rys : list (result value)) :
  particles e = [] ->
  Forall (fun ry => returns_number ry = true) rys ->
  let n := Z.of_nat (length rys) in
  let len := Z.of_nat (length (particles (emit_all rys e))) in
  (n <= lim -> len = n)
  /\ (lim <= n -> len = if Z.even (n - lim) then lim else lim - 1).
Proof.
  intros Hempty. induction rys as [| ry rys IH] using rev_ind; intros Hnum n len.
  - subst n len. cbn. rewrite Hempty. cbn. split; intros; lia.
  - apply Forall_app in Hnum as [Hrys Hry]. rewrite Forall_singleton in Hry.
    specialize (IH Hrys). cbn zeta in IH. destruct IH as [IHlow IHhigh].
    subst n len. rewrite emit_all_part000_snoc, length_app. cbn [length].
    set (m := Z.of_nat (length rys)) in *.
    set (l := Z.of_nat (length (particles (emit_all rys e)))) in *.
    replace (Z.of_nat (length rys + 1)) with (m + 1) by lia.
    assert (Hstep := emit_length_step ry (emit_all rys e)
                       (emit_all_part000_config rys e) Hry).
    fold l in Hstep.
    replace (m + 1 - lim) with (Z.succ (m - lim)) by lia.
    rewrite Z.even_succ, <- Z.negb_even.
    destruct (Z.le_gt_cases lim m) as [Hhi | Hlo].
    + specialize (IHhigh Hhi). destruct (Z.even (m - lim)); cbn [negb] in *.
      * rewrite Hstep by lia. rewrite IHhigh, Z.ltb_irrefl. split; intros; lia.
      * rewrite Hstep by lia. rewrite IHhigh.
        destruct (Z.ltb_spec (lim - 1) lim); [| lia]. split; intros; lia.
    + specialize (IHlow ltac:(lia)). rewrite Hstep by lia. rewrite IHlow.
      destruct (Z.ltb_spec m lim); [| lia]. split; [lia |].
      intros Hge. assert (m - lim = -1) as -> by lia. cbn. lia.
Qed.

End SteadyState.

(** With every call of [randomInRange] throwing, an empty list stays
    empty: each [emit ()] finds room and fails to create its particle. *)
Lemma emit_all_threw (rys : list (result value)) (e : Part000.ParticleEmitter) :
  1 <= Part000.limit e ->
  is_number (fst (Part000.source e)) = true ->
  is_number (snd (Part000.source e)) = true ->
  Part000.particles e = [] ->
  Forall (fun ry => threw ry = true) rys ->
  Part000.particles (Part000.emit_all rys e) = [].
Proof.
  revert e. induction rys as [| ry rys IH]; intros e Hlim Hx Hy Hempty Hall; [exact Hempty |].
  inversion Hall as [| ? ? Hry Hrys]; subst.
  destruct ry as [v | err]; [discriminate |].
  unfold Part000.emit_all in *. cbn [foldl].
  assert (Hstep : fst (Part000.emit (Throw err) e) = Part000.set_particles [] e).
  { unfold Part000.emit. rewrite Hempty. cbn [fmap list_fmap length].
    destruct (Z.ltb_spec (Z.of_nat 0) (Part000.limit e)); [| lia].
    by rewrite (createParticle_oracle_throws e _ err Hx Hy). }
  rewrite Hstep. apply IH; [exact Hlim | exact Hx | exact Hy | reflexivity | exact Hrys].
Qed.

(** C1 (amended): [part_000] calls a function [randomInRange] that it does
    not define.  Where one is in scope and returns a number at each call,
    an emitter of [part_000] built without a seed particle, with a
    capacity of at least one and a source point of numbers, holds [n]
    particles after [n] calls of [emit ()] up to the capacity; from there
    on the length alternates, the capacity after an even number of further
    calls and one less after an odd number.  Where the call of
    [randomInRange] throws, as it does with [part_000] loaded alone, every
    [emit ()] below the capacity throws what the call threw and the list
    of such an emitter stays empty.  A call on a full list removes the
    particle at index 0 and appends none, in [index.js] as well; a call
    below the capacity appends the particle it creates. *)
Theorem emit_fills_then_alternates
    (lim : Z) (settings : value) (ry0 : result value) (e : Part000.ParticleEmitter)
    (rys : list (result value)) :
  Part000.createEmitter (Some lim) settings ry0 = Return e ->
  Part000.particles e = [] ->
  1 <= lim ->
  is_number (fst (Part000.source e)) = true ->
  is_number (snd (Part000.source e)) = true ->
  let n := Z.of_nat (length rys) in
  let len := Z.of_nat (length (Part000.particles (Part000.emit_all rys e))) in
  (Forall (fun ry => returns_number ry = true) rys ->
     (n <= lim -> len = n)
     /\ (lim <= n -> len = if Z.even (n - lim) then lim else lim - 1))
  /\ (Forall (fun ry => threw ry = true) rys ->
        Part000.particles (Part000.emit_all rys e) = [])
  /\ (forall err under,
        config under = config e ->
        Z.of_nat (length (Part000.particles under)) < Part000.limit under ->
        Part000.emit (Throw err) under
          = (Part000.set_particles (move <$> Part000.particles under) under,
             Throw err))
  /\ (forall ry full,
        Part000.limit full <= Z.of_nat (length (Part000.particles full)) ->
        Part000.emit ry full
          = (Part000.set_particles (tail (move <$> Part000.particles full)) full,
             Return ()))
  /\ (forall ry under p,
        Z.of_nat (length (Part000.particles under)) < Part000.limit under ->
        Part000.createParticle VUndefined ry under = Return p ->
        Part000.emit ry under
          = (Part000.set_particles ((move <$> Part000.particles under) ++ [p]) under,
             Return ()))
  /\ (forall d full,
        Index.limit full <= Z.of_nat (length (Index.particles full)) ->
        Index.emit d full
          = (Index.set_particles (tail (move <$> Index.particles full)) full,
             Return ())).
Proof.
  intros Hnew Hempty Hlim Hx Hy n len.
  assert (Hl : Part000.limit e = lim).
  { revert Hnew. unfold Part000.createEmitter.
    repeat (match goal with
            | |- context [mbind _ ?r] => destruct r; cbn [mbind result_bind]
            end; [| discriminate]).
    destruct (truthy _); [| by intros [= <-]].
    destruct (Part000.createParticle _ _ _); cbn [mbind result_bind]; [| discriminate].
    by intros [= <-]. }
  split; [| split; [| split; [| split; [| split]]]].
  - intros Hnum. exact (emit_all_length lim e Hlim Hl Hx Hy rys Hempty Hnum).
  - apply emit_all_threw; [lia | exact Hx | exact Hy | exact Hempty].
  - intros err under Hc Hunder. unfold Part000.emit. rewrite length_fmap.
    destruct (Z.ltb_spec (Z.of_nat (length (Part000.particles under))) (Part000.limit under));
      [| lia].
    by rewrite (createParticle_config e under _ _ Hc),
         (createParticle_oracle_throws e _ err Hx Hy).
  - intros ry full Hfull. unfold Part000.emit. rewrite length_fmap.
    destruct (Z.ltb_spec (Z.of_nat (length (Part000.particles full))) (Part000.limit full));
      [lia | reflexivity].
  - intros ry under p Hunder Hp. unfold Part000.emit. rewrite length_fmap.
    destruct (Z.ltb_spec (Z.of_nat (length (Part000.particles under))) (Part000.limit under));
      [| lia].
    by rewrite Hp.
  - intros d full Hfull. unfold Index.emit. rewrite length_fmap.
    destruct (Z.ltb_spec (Z.of_nat (length (Index.particles full))) (Index.limit full));
      [lia | reflexivity].
Qed.

(** C6: the constructor of [part_000] reads [position.x] of the settings
    without a default for [position]: built with the default settings
    [{}], or with any settings that leave [position] out, it throws a
    [TypeError] where the defaults were to apply. *)
Theorem createEmitter_without_position (lim : option Z) (ry : result value) :
  Part000.createEmitter lim VUndefined ry
    = Throw (TypeError "Cannot read properties of undefined or null")
  /\ Part000.createEmitter lim (VObj []) ry
       = Throw (TypeError "Cannot read properties of undefined or null")
  /\ Part000.createEmitter lim (VObj [("color", VStr "red"); ("size", VNum (num 4))]) ry
       = Throw (TypeError "Cannot read properties of undefined or null").
Proof. repeat split. Qed.

(** With a [position] object, be it empty, the other defaults apply. *)
Lemma createEmitter_defaults (lim : option Z) (ry : result value) :
  Part000.createEmitter lim settings_position_only ry
    = Return {| Part000.limit := default 25 lim;
                Part000.color := VStr "black";
                Part000.size := VNum (num 2);
                Part000.source := (VNum (num 0), VNum (num 0));
                Part000.spread := (VNum (num 3), VNum (num (-3)));
                Part000.speed := num 10;
                Part000.particles := [] |}.
Proof. reflexivity. Qed.

(** A numeric speed is taken by its absolute value; the [init] flag seeds
    one particle. *)
Lemma createEmitter_speed_and_seed :
  exists e,
    Part000.createEmitter (Some 3)
      (VObj [("position", VObj []); ("speed", VNum (num (-7))); ("init", VBool true)])
      (Return (VNum (num 2))) = Return e
    /\ Part000.speed e = num 7
    /\ length (Part000.particles e) = 1%nat.
Proof.
  eexists. split; [reflexivity |]. split; [| reflexivity].
  apply Qc_is_canon. reflexivity.
Qed.

(** ** The claims that fail on the code, at concrete inputs *)

(** C1: capacity 3, no seed.  With a [randomInRange] in scope that returns
    0, three calls fill the list and the fourth leaves two particles, not
    three.  With [part_000] alone, where [randomInRange] is unbound, three
    calls leave the list empty. *)
Lemma emit_fourth_call_shrinks :
  Part000.createEmitter (Some 3) settings_position_only (Return (VNum (num 0)))
    = Return sample_emitter
  /\ Part000.createEmitter (Some 3) settings_position_only Part000.randomInRange_unbound
    = Return sample_emitter
  /\ Part000.particles sample_emitter = []
  /\ length (Part000.particles
               (Part000.emit_all (replicate 3 (Return (VNum (num 0)))) sample_emitter))
     = 3%nat
  /\ length (Part000.particles
               (Part000.emit_all (replicate 4 (Return (VNum (num 0)))) sample_emitter))
     = 2%nat
  /\ length (Part000.particles
               (Part000.emit_all (replicate 4 (Return (VNum (num 0)))) sample_emitter))
     <> Z.to_nat (Part000.limit sample_emitter)
  /\ length (Part000.particles
               (Part000.emit_all (replicate 3 Part000.randomInRange_unbound) sample_emitter))
     = 0%nat
  /\ length (Part000.particles
               (Part000.emit_all (replicate 3 Part000.randomInRange_unbound) sample_emitter))
     <> Z.to_nat (Part000.limit sample_emitter).
Proof.
  do 5 (split; [reflexivity |]). split; [vm_compute; discriminate |].
  split; [reflexivity |]. vm_compute. discriminate.
Qed.

(** C2: [ParticleEmitter (0)] of [index.js] holds its seed particle, one
    more than its capacity, before any call of [emit ()]. *)
Lemma seeded_emitter_exceeds_zero_capacity :
  exists e,
    Index.new_ParticleEmitter (Some 0) sample_draws = Return e
    /\ Index.limit e = 0
    /\ ~ (Z.of_nat (length (Index.particles (Index.emit_all [] e))) <= Index.limit e).
Proof.
  eexists. split; [reflexivity |]. split; [reflexivity |].
  vm_compute. intros H. by apply H.
Qed.

(** C5: in [index.js] a fresh engine is still in state INIT, not START,
    once [start] has installed the loops. *)
Lemma start_index_stays_INIT :
  Index.new_Engine (Some sample_canvas) sample_size (VFun 2) (VFun 1) Index.loaded
    = Return fresh_index
  /\ exists this' pg',
       Index.start (VObj sample_callbacks) fresh_index Index.loaded
         = ((this', pg'), Return ())
       /\ intervals pg' = [(SIM_LOOP (VFun 1), 50)]
       /\ Index.state this' = VStr "INIT"
       /\ Index.state this' <> prop (states pg') "start".
Proof.
  split; [reflexivity |]. eexists _, _.
  do 3 (split; [reflexivity |]). discriminate.
Qed.

(** C7: in [index.js] the internal value ['INIT'] of the state [init] is
    not accepted. *)
Lemma setState_index_rejects_value :
  prop (states Index.loaded) "init" = VStr "INIT"
  /\ is_state_value (states Index.loaded) (VStr "INIT") = true
  /\ Index.setState (VStr "INIT") fresh_index Index.loaded
     = ((fresh_index, Index.loaded), Throw (Error "No state found for " [VStr "INIT"])).
Proof. repeat split. Qed.

(** C10: on a fresh engine, where the table's [last] is null,
    [setState ('last')] leaves the engine in its initial state, not in
    the state null. *)
Lemma setState_last_not_null :
  prop (states Part000.loaded) "last" = VNull
  /\ prop (states Index.loaded) "last" = VNull
  /\ (exists this' pg',
        Part000.setState (VStr "last") fresh_part000 Part000.loaded
          = ((this', pg'), Return ())
        /\ Part000.state this' = VNum (num 0)
        /\ Part000.state this' <> VNull)
  /\ (exists this' pg',
        Index.setState (VStr "last") fresh_index Index.loaded
          = ((this', pg'), Return ())
        /\ Index.state this' = VStr "INIT"
        /\ Index.state this' <> VNull).
Proof.
  split; [reflexivity |]. split; [reflexivity |].
  split; eexists _, _; (do 2 (split; [reflexivity |])); discriminate.
Qed.

(** ** The theorems at concrete inputs *)

Lemma emit_fills_then_alternates_witness :
  let zero := Return (VNum (num 0)) in
  let len rys := Z.of_nat (length (Part000.particles (Part000.emit_all rys sample_emitter))) in
  len (replicate 2 zero) = 2
  /\ len (replicate 3 zero) = 3
  /\ len (replicate 4 zero) = 2
  /\ len (replicate 5 zero) = 3
  /\ Part000.particles (Part000.emit_all (replicate 4 Part000.randomInRange_unbound)
                          sample_emitter) = []
  /\ Part000.emit Part000.randomInRange_unbound sample_emitter
       = (sample_emitter, Throw (ReferenceError "randomInRange is not defined")).
Proof.
  intros zero len.
  assert (Hzero : forall k, Forall (fun ry => returns_number ry = true) (replicate k zero)).
  { intros k. apply Forall_replicate. reflexivity. }
  assert (H := fun rys =>
            emit_fills_then_alternates 3 settings_position_only zero sample_emitter rys
              eq_refl eq_refl ltac:(lia) eq_refl eq_refl).
  cbn zeta in H.
  split; [| split; [| split; [| split; [| split]]]].
  - destruct (H (replicate 2 zero)) as [Hnum _].
    destruct (Hnum (Hzero 2%nat)) as [Hlow _]. apply Hlow. cbn. lia.
  - destruct (H (replicate 3 zero)) as [Hnum _].
    destruct (Hnum (Hzero 3%nat)) as [Hlow _]. apply Hlow. cbn. lia.
  - destruct (H (replicate 4 zero)) as [Hnum _].
    destruct (Hnum (Hzero 4%nat)) as [_ Hhigh]. apply Hhigh. cbn. lia.
  - destruct (H (replicate 5 zero)) as [Hnum _].
    destruct (Hnum (Hzero 5%nat)) as [_ Hhigh]. apply Hhigh. cbn. lia.
  - destruct (H (replicate 4 Part000.randomInRange_unbound)) as (_ & Hthrew & _).
    apply Hthrew. apply Forall_replicate. reflexivity.
  - destruct (H []) as (_ & _ & Hthrow & _).
    apply (Hthrow (ReferenceError "randomInRange is not defined") sample_emitter);
      [reflexivity | cbn; lia].
Defined.

Lemma particles_within_capacity_witness :
  Z.of_nat (length (Index.particles
                      (Index.emit_all (replicate 5 sample_draws) seeded_index)))
    <= Index.limit seeded_index
  /\ Z.of_nat (length (Part000.particles
                         (Part000.emit_all (replicate 5 (Return (VNum (num 0))))
                            sample_emitter)))
       <= Part000.limit sample_emitter.
Proof.
  destruct particles_within_capacity as [Hindex Hpart].
  split.
  - apply (Hindex (Some 3) sample_draws); [reflexivity | vm_compute; discriminate].
  - apply (Hpart (Some 3) settings_position_only (Return (VNum (num 0))));
      [reflexivity | vm_compute; discriminate].
Defined.

Lemma start_contract_witness :
  Part000.start (VObj sample_callbacks) paused_part000 Part000.loaded
    = ((paused_part000, Part000.loaded), Return ())
  /\ Part000.start (VObj sample_callbacks) fresh_part000 Part000.loaded
     = ((Part000.set_state (VNum (num 1))
           (Part000.set_render (RENDER_LOOP (VFun 2)) fresh_part000),
         {| states := Part000.states_with (VNum (num 0));
            intervals := [(SIM_LOOP (VFun 1), 50)];
            animation_frames := [RENDER_LOOP (VFun 2)] |}),
        Return ())
  /\ Index.start (VObj sample_callbacks) paused_index Index.loaded
     = ((paused_index, Index.loaded), Return ())
  /\ Index.start (VObj sample_callbacks) fresh_index Index.loaded
     = ((Index.set_render (RENDER_LOOP (VFun 2)) fresh_index,
         {| states := Index.states_with VNull;
            intervals := [(SIM_LOOP (VFun 1), 50)];
            animation_frames := [RENDER_LOOP (VFun 2)] |}),
        Return ()).
Proof.
  destruct (start_contract VNull sample_callbacks Part000.loaded) as [Hpart _].
  destruct (start_contract VNull sample_callbacks Index.loaded) as [_ Hindex].
  repeat apply conj.
  - apply (Hpart paused_part000); [reflexivity | discriminate].
  - apply (Hpart fresh_part000); reflexivity.
  - apply (Hindex paused_index); [reflexivity | discriminate].
  - apply (Hindex fresh_index); reflexivity.
Defined.

Lemma setState_contract_witness :
  (exists this' pg',
     Part000.setState (VNum (num 3)) fresh_part000 Part000.loaded
       = ((this', pg'), Return ())
     /\ Part000.state this' = VNum (num 3)
     /\ prop (states pg') "last" = VNum (num 0))
  /\ (exists this' pg',
        Part000.setState (VStr "pause") fresh_part000 Part000.loaded
          = ((this', pg'), Return ())
        /\ Part000.state this' = VNum (num 3)
        /\ prop (states pg') "last" = VNum (num 0))
  /\ Part000.setState (VStr "PAUSE") fresh_part000 Part000.loaded
     = ((fresh_part000, Part000.loaded),
        Throw (Error "Cannot find state "
                 [VStr "PAUSE"; VNum (num 0); VNum (num 1); VNum (num 2); VNum (num 3);
                  VNum (num 4); VNull]))
  /\ (exists this' pg',
        Index.setState (VStr "pause") fresh_index Index.loaded
          = ((this', pg'), Return ())
        /\ Index.state this' = VStr "PAUSE"
        /\ prop (states pg') "last" = VStr "INIT")
  /\ Index.setState (VBool true) fresh_index Index.loaded
     = ((fresh_index, Index.loaded), Throw (Error "No state found for " [VBool true])).
Proof.
  split; [| split; [| split; [| split]]].
  - eexists _, _.
    split; [apply (proj1 (setState_contract VNull Part000.loaded (VNum (num 3)) eq_refl));
            reflexivity |].
    split; reflexivity.
  - destruct (proj1 (setState_contract VNull Part000.loaded (VStr "pause") eq_refl)
                fresh_part000 eq_refl) as (_ & Hname & _).
    destruct (Hname eq_refl eq_refl) as (k & Hk & Hset).
    injection Hk as <-. eexists _, _. split; [exact Hset | split; reflexivity].
  - apply (proj1 (setState_contract VNull Part000.loaded (VStr "PAUSE") eq_refl));
      reflexivity.
  - destruct (proj2 (setState_contract VNull Index.loaded (VStr "pause") eq_refl)
                fresh_index eq_refl) as (Hname & _).
    destruct (Hname eq_refl) as (k & Hk & Hset).
    injection Hk as <-. eexists _, _. split; [exact Hset | split; reflexivity].
  - apply (proj2 (setState_contract VNull Index.loaded (VBool true) eq_refl));
      reflexivity.
Defined.

Lemma setState_last_witness :
  Part000.setState (VStr "last") paused_part000 Part000.loaded
    = ((paused_part000, set_states (Part000.states_with (VNum (num 3))) Part000.loaded),
       Return ())
  /\ Index.setState (VStr "last") paused_index Index.loaded
     = ((paused_index, set_states (Index.states_with (VStr "PAUSE")) Index.loaded),
        Return ()).
Proof.
  split.
  - apply (proj1 (setState_last VNull Part000.loaded)); [reflexivity | discriminate].
  - apply (proj2 (setState_last VNull Index.loaded)); reflexivity.
Defined.

(** * Further properties of the code *)

(** ** GameObject: the setters and the constructor *)

Section SetterFacts.

Variables (props : list (string * value)) (this : GameObject).

(** X1: [setPosition] with an object argument returns exactly when each
    of [x] and [y] is left out or is a number; a coordinate left out keeps
    its current value, and nothing but the position is written.  It throws
    its own error for any other coordinate, and a [TypeError] when the
    argument is undefined or null. *)
Theorem setPosition_contract :
  (omitted_or_number (prop props "x") = true ->
   omitted_or_number (prop props "y") = true ->
   exists this',
     setPosition (VObj props) this = Return this'
     /\ position this'
        = {| x := given_or (prop props "x") (x (position this));
             y := given_or (prop props "y") (y (position this)) |}
     /\ velocity this' = velocity this
     /\ acceleration this' = acceleration this
     /\ size this' = size this
     /\ color this' = color this
     /\ methods_render this' = methods_render this)
  /\ (omitted_or_number (prop props "x") = false
      \/ omitted_or_number (prop props "y") = false ->
      setPosition (VObj props) this
        = Throw (Error "setPosition called with invalid x and y coordinates." []))
  /\ (exists e1 e2,
        setPosition VUndefined this = Throw (TypeError e1)
        /\ setPosition VNull this = Throw (TypeError e2)).
Proof.
  unfold setPosition, prop. cbn [get mbind result_bind].
  repeat apply conj.
  - intros Hx Hy.
    destruct (default VUndefined (lookup_prop "x" props)); try discriminate;
      destruct (default VUndefined (lookup_prop "y" props)); try discriminate;
      eexists; repeat split.
  - intros [H | H].
    + destruct (default VUndefined (lookup_prop "x" props)); try discriminate;
        cbn; try reflexivity;
        destruct (default VUndefined (lookup_prop "y" props)); reflexivity.
    + destruct (default VUndefined (lookup_prop "y" props)); try discriminate;
        destruct (default VUndefined (lookup_prop "x" props)); reflexivity.
  - eexists _, _. split; reflexivity.
Qed.

(** X2: [setVelocity] has the contract of [setPosition], on the velocity. *)
Theorem setVelocity_contract :
  (omitted_or_number (prop props "x") = true ->
   omitted_or_number (prop props "y") = true ->
   exists this',
     setVelocity (VObj props) this = Return this'
     /\ velocity this'
        = {| x := given_or (prop props "x") (x (velocity this));
             y := given_or (prop props "y") (y (velocity this)) |}
     /\ position this' = position this
     /\ acceleration this' = acceleration this
     /\ size this' = size this
     /\ color this' = color this
     /\ methods_render this' = methods_render this)
  /\ (omitted_or_number (prop props "x") = false
      \/ omitted_or_number (prop props "y") = false ->
      setVelocity (VObj props) this
        = Throw (Error "setVelocity called with invalid x and y coordinates." []))
  /\ (exists e1 e2,
        setVelocity VUndefined this = Throw (TypeError e1)
        /\ setVelocity VNull this = Throw (TypeError e2)).
Proof.
  unfold setVelocity, prop. cbn [get mbind result_bind].
  repeat apply conj.
  - intros Hx Hy.
    destruct (default VUndefined (lookup_prop "x" props)); try discriminate;
      destruct (default VUndefined (lookup_prop "y" props)); try discriminate;
      eexists; repeat split.
  - intros [H | H].
    + destruct (default VUndefined (lookup_prop "x" props)); try discriminate;
        cbn; try reflexivity;
        destruct (default VUndefined (lookup_prop "y" props)); reflexivity.
    + destruct (default VUndefined (lookup_prop "y" props)); try discriminate;
        destruct (default VUndefined (lookup_prop "x" props)); reflexivity.
  - eexists _, _. split; reflexivity.
Qed.

End SetterFacts.

Lemma setPosition_contract_witness :
  (exists this',
     setPosition (VObj [("x", VNum (num 5))]) resting = Return this'
     /\ position this' = {| x := num 5; y := num 9 |}
     /\ velocity this' = velocity resting
     /\ acceleration this' = acceleration resting
     /\ size this' = size resting
     /\ color this' = color resting
     /\ methods_render this' = methods_render resting)
  /\ setPosition (VObj [("x", VNum (num 5)); ("y", VStr "9")]) resting
     = Throw (Error "setPosition called with invalid x and y coordinates." []).
Proof.
  split.
  - apply (proj1 (setPosition_contract [("x", VNum (num 5))] resting)); reflexivity.
  - apply (proj1 (proj2 (setPosition_contract
                           [("x", VNum (num 5)); ("y", VStr "9")] resting))).
    right. reflexivity.
Defined.

Lemma setVelocity_contract_witness :
  (exists this',
     setVelocity (VObj [("y", VNum (num 2))]) resting = Return this'
     /\ velocity this' = {| x := num 0; y := num 2 |}
     /\ position this' = position resting
     /\ acceleration this' = acceleration resting
     /\ size this' = size resting
     /\ color this' = color resting
     /\ methods_render this' = methods_render resting)
  /\ setVelocity (VObj [("x", VBool true)]) resting
     = Throw (Error "setVelocity called with invalid x and y coordinates." []).
Proof.
  split.
  - apply (proj1 (setVelocity_contract [("y", VNum (num 2))] resting)); reflexivity.
  - apply (proj1 (proj2 (setVelocity_contract [("x", VBool true)] resting))).
    left. reflexivity.
Defined.

Section ConstructorFacts.

Variable s : settings.

(** X4: the constructor runs [init] on a blank object (position and
    velocity zero, acceleration 0, size 0 by 0) before it looks at
    [render]: an error of [init] comes first, a missing [render] throws
    even after [init] has returned, and otherwise the result is what
    [init] made of the blank object, with the draw routine bound. *)
Theorem createObject_contract :
  (forall f e, init s = Some f -> f blank = Throw e -> createObject s = Throw e)
  /\ (forall made,
        match init s with Some f => f blank | None => Return blank end = Return made ->
        GameObject.render s = None ->
        createObject s = Throw (Error "GameObject requires a render method." []))
  /\ (forall made r,
        match init s with Some f => f blank | None => Return blank end = Return made ->
        GameObject.render s = Some r ->
        createObject s = Return (set_methods_render (Some r) made))
  /\ (forall r,
        init s = None -> GameObject.render s = Some r ->
        exists o,
          createObject s = Return o
          /\ position o = {| x := 0%Qc; y := 0%Qc |}
          /\ velocity o = {| x := 0%Qc; y := 0%Qc |}
          /\ acceleration o = 0%Qc
          /\ methods_render o = Some r).
Proof.
  unfold createObject. repeat apply conj.
  - intros f e -> ->. reflexivity.
  - intros made -> ->. reflexivity.
  - intros made r -> ->. reflexivity.
  - intros r -> ->. eexists. repeat split.
Qed.

End ConstructorFacts.

Lemma createObject_contract_witness :
  createObject {| init := Some (setAcceleration (VNum (num 2))); GameObject.render := None |}
    = Throw (Error "Acceleration must be between 0 and 1." [])
  /\ createObject {| init := Some (setAcceleration (VNum (num 1))); GameObject.render := None |}
     = Throw (Error "GameObject requires a render method." [])
  /\ createObject {| init := Some (setAcceleration (VNum (num 1)));
                     GameObject.render := Some (UserRender 0) |}
     = Return (set_methods_render (Some (UserRender 0)) (set_acceleration (num 1) blank))
  /\ (exists o,
        createObject {| init := None; GameObject.render := Some (UserRender 0) |} = Return o
        /\ position o = {| x := 0%Qc; y := 0%Qc |}
        /\ velocity o = {| x := 0%Qc; y := 0%Qc |}
        /\ acceleration o = 0%Qc
        /\ methods_render o = Some (UserRender 0)).
Proof.
  repeat apply conj.
  - apply (proj1 (createObject_contract _) (setAcceleration (VNum (num 2)))); reflexivity.
  - apply (proj1 (proj2 (createObject_contract _)) (set_acceleration (num 1) blank));
      reflexivity.
  - apply (proj1 (proj2 (proj2 (createObject_contract _)))); reflexivity.
  - apply (proj2 (proj2 (proj2 (createObject_contract _)))); reflexivity.
Defined.

(** ** The random helpers *)

Section DrawFacts.

Variable r : Qc.
Hypothesis draw_nonnegative : (0 <= r)%Qc.
Hypothesis draw_below_one : (r < 1)%Qc.

Lemma this_scaled (q : Qc) (n : Z) :
  (this (q * Q2Qc (inject_Z n))%Qc == this q * inject_Z n)%Q.
Proof. cbn. rewrite Qred_correct. by rewrite (Qred_correct (inject_Z n)). Qed.

Lemma scaled_nonpositive (q m : Q) :
  (0 <= q)%Q -> (q < 1)%Q -> (m <= 0)%Q -> (m <= q * m /\ q * m <= 0)%Q.
Proof. intros. split; nra. Qed.

(** A draw scaled by a count that is zero or negative. *)
Lemma floor_scaled_draw_neg (n : Z) :
  n <= 0 -> n <= Qfloor (r * Q2Qc (inject_Z n))%Qc <= 0.
Proof.
  intros Hn. rewrite this_scaled.
  assert (Hn' : (inject_Z n <= 0)%Q).
  { change (inject_Z n <= inject_Z 0)%Q. by rewrite <- Zle_Qle. }
  destruct (scaled_nonpositive (this r) (inject_Z n)
              draw_nonnegative draw_below_one Hn') as [Hlo Hhi].
  split.
  - rewrite <- (Qfloor_Z n) at 1. by apply Qfloor_resp_le.
  - change 0 with (Qfloor (inject_Z 0)). by apply Qfloor_resp_le.
Qed.

Lemma randomInRange_low_high (max lo : Z) :
  (lo <= max -> lo <= Index.randomInRange r max (Some lo) <= max)
  /\ (max < lo -> max + 1 <= Index.randomInRange r max (Some lo) <= lo).
Proof.
  change (Index.randomInRange r max (Some lo))
    with (Qfloor (r * Q2Qc (inject_Z (max - lo + 1)))%Qc + lo).
  split; intros H.
  - pose proof (floor_scaled_draw r (max - lo + 1)
                  draw_nonnegative draw_below_one ltac:(lia)). lia.
  - pose proof (floor_scaled_draw_neg (max - lo + 1) ltac:(lia)). lia.
Qed.

End DrawFacts.



(** X6: for a draw of [0, 1), [randomInArray] of [index.js] gives an
    element of a non-empty array, and undefined for the empty array. *)
Theorem randomInArray_member (r : Qc) (arr : list value) :
  (0 <= r)%Qc -> (r < 1)%Qc ->
  (arr <> [] -> Index.randomInArray r arr ∈ arr)
  /\ Index.randomInArray r [] = VUndefined.
Proof.
  intros H0 H1. split.
  - intros Hne. unfold Index.randomInArray, Index.at_index.
    assert (Hlen : 0 < Z.of_nat (length arr)) by (destruct arr; [done | cbn; lia]).
    pose proof (proj1 (randomInRange_low_high r H0 H1 (Z.of_nat (length arr) - 1) 0)
                  ltac:(lia)) as Hi.
    change (Index.randomInRange r (Z.of_nat (length arr) - 1) (Some 0))
      with (Index.randomInRange r (Z.of_nat (length arr) - 1) None) in Hi.
    set (i := Index.randomInRange r (Z.of_nat (length arr) - 1) None) in *.
    destruct (Z.ltb_spec i 0) as [| _]; [lia |].
    destruct (lookup_lt_is_Some_2 arr (Z.to_nat i) ltac:(lia)) as [v Hv].
    rewrite Hv. cbn. by apply list_elem_of_lookup_2 in Hv.
  - unfold Index.randomInArray, Index.at_index. cbn [length].
    pose proof (proj2 (randomInRange_low_high r H0 H1 (-1) 0) ltac:(lia)) as Hi.
    change (Index.randomInRange r (-1) (Some 0))
      with (Index.randomInRange r (Z.of_nat 0 - 1) None) in Hi.
    destruct (_ <? 0); [reflexivity |]. by rewrite lookup_nil.
Qed.

Lemma randomInArray_member_witness :
  Index.randomInArray (Q2Qc (1 # 3)) [VStr "red"; VStr "blue"]
    ∈ [VStr "red"; VStr "blue"].
Proof.
  apply (proj1 (randomInArray_member (Q2Qc (1 # 3)) [VStr "red"; VStr "blue"]
                  ltac:(discriminate) ltac:(reflexivity))).
  discriminate.
Defined.

(** X7: for a draw of [0, 1), [inArray] of [part_000] gives an element of
    a non-empty array, and undefined for the empty array, where the index
    drawn is -1 or 0. *)
Theorem inArray_member (r : Qc) (array : list value) :
  (0 <= r)%Qc -> (r < 1)%Qc ->
  (array <> [] -> Part000.inArray r array ∈ array)
  /\ Part000.inArray r [] = VUndefined
  /\ -1 <= Part000.inRange r (-1) None <= 0.
Proof.
  intros H0 H1.
  assert (Hempty : -1 <= Part000.inRange r (-1) None <= 0).
  { change (Part000.inRange r (-1) None)
      with (Qfloor (r * Q2Qc (inject_Z (0 - -1 + 1)))%Qc + -1).
    pose proof (floor_scaled_draw r (0 - -1 + 1) H0 H1 ltac:(lia)). lia. }
  split; [| split; [| exact Hempty]].
  - intros Hne. unfold Part000.inArray.
    assert (Hlen : 0 < Z.of_nat (length array)) by (destruct array; [done | cbn; lia]).
    assert (Hi : 0 <= Part000.inRange r (Z.of_nat (length array) - 1) None
                 <= Z.of_nat (length array) - 1).
    { unfold Part000.inRange. change (default 0 None) with 0. cbv zeta.
      destruct (Z.ltb_spec 0 (Z.of_nat (length array) - 1)).
      - pose proof (floor_scaled_draw r (Z.of_nat (length array) - 1 - 0 + 1)
                      H0 H1 ltac:(lia)). lia.
      - pose proof (floor_scaled_draw r (0 - (Z.of_nat (length array) - 1) + 1)
                      H0 H1 ltac:(lia)). lia. }
    set (i := Part000.inRange r (Z.of_nat (length array) - 1) None) in *.
    destruct (Z.ltb_spec i 0) as [| _]; [lia |].
    destruct (lookup_lt_is_Some_2 array (Z.to_nat i) ltac:(lia)) as [v Hv].
    rewrite Hv. cbn. by apply list_elem_of_lookup_2 in Hv.
  - unfold Part000.inArray. cbn [length].
    change (Z.of_nat 0 - 1) with (-1).
    destruct (_ <? 0); [reflexivity |]. by rewrite lookup_nil.
Qed.

Lemma inArray_member_witness :
  Part000.inArray (Q2Qc (1 # 3)) [VStr "red"; VStr "blue"] ∈ [VStr "red"; VStr "blue"].
Proof.
  apply (proj1 (inArray_member (Q2Qc (1 # 3)) [VStr "red"; VStr "blue"]
                  ltac:(discriminate) ltac:(reflexivity))).
  discriminate.
Defined.

(** ** Engine: start, setState and the pause toggle *)

Section EngineFacts.

(** [start] of [part_000] on a table of the script, by cases. *)
Lemma start_part000_cases (last : value) (props : list (string * value))
    (this : Part000.Engine) (pg : Page) :
  states pg = Part000.states_with last ->
  Part000.start (VObj props) this pg =
    if strict_eq (Part000.state this) (VNum (num 0))
    then ((Part000.set_state (VNum (num 1))
             (Part000.set_render (RENDER_LOOP (prop props "render")) this),
           set_states (Part000.states_with (Part000.state this))
             (requestAnimationFrame (RENDER_LOOP (prop props "render"))
                (setInterval (SIM_LOOP (prop props "loop")) 50 pg))),
          Return ())
    else ((this, pg), Return ()).
Proof.
  intros Hpg. unfold Part000.start. cbn [destructure_loop_render get mbind result_bind].
  rewrite Hpg. change (prop (Part000.states_with last) "init") with (VNum (num 0)).
  destruct (strict_eq (Part000.state this) (VNum (num 0))); [| reflexivity].
  fold (prop props "loop") (prop props "render").
  rewrite (setState_part000_cases last) by (by rewrite <- Hpg).
  cbn [states requestAnimationFrame setInterval]. rewrite Hpg. reflexivity.
Qed.

(** [start] of [index.js] on a table of the script, by cases. *)
Lemma start_index_cases (last : value) (props : list (string * value))
    (this : Index.Engine) (pg : Page) :
  states pg = Index.states_with last ->
  Index.start (VObj props) this pg =
    if strict_eq (Index.state this) (VStr "INIT")
    then ((Index.set_render (RENDER_LOOP (prop props "render")) this,
           requestAnimationFrame (RENDER_LOOP (prop props "render"))
             (setInterval (SIM_LOOP (prop props "loop")) 50 pg)),
          Return ())
    else ((this, pg), Return ()).
Proof.
  intros Hpg. unfold Index.start. cbn [destructure_loop_render get mbind result_bind].
  rewrite Hpg. reflexivity.
Qed.

(** X10: in [part_000] the loops are installed at most once: whatever
    state the engine is in, a call of [start] that follows a call of
    [start] changes neither the engine nor the page, and the first call
    adds one interval at most. *)
Theorem start_once_part000 (last : value) (props props' : list (string * value))
    (this : Part000.Engine) (pg : Page) :
  states pg = Part000.states_with last ->
  let after := fst (Part000.start (VObj props) this pg) in
  Part000.start (VObj props') (fst after) (snd after) = (after, Return ())
  /\ (length (intervals (snd after)) <= length (intervals pg) + 1)%nat.
Proof.
  intros Hpg. rewrite (start_part000_cases last props this pg Hpg).
  destruct (strict_eq (Part000.state this) (VNum (num 0))) eqn:E; cbn zeta; cbn [fst snd].
  - split; [| cbn; rewrite length_app; cbn; lia].
    rewrite (start_part000_cases (Part000.state this)) by reflexivity. reflexivity.
  - split; [| lia]. rewrite (start_part000_cases last props' this pg Hpg), E. reflexivity.
Qed.

(** The engine and the page after [n] calls of [start] in [index.js]. *)
Lemma start_index_iter (last : value) (props : list (string * value)) (n : nat)
    (this : Index.Engine) (pg : Page) :
  states pg = Index.states_with last ->
  Index.state this = VStr "INIT" ->
  let after := Nat.iter n (fun ep => fst (Index.start (VObj props) (fst ep) (snd ep)))
                 (this, pg) in
  Index.state (fst after) = VStr "INIT"
  /\ states (snd after) = Index.states_with last
  /\ intervals (snd after)
     = intervals pg ++ replicate n (SIM_LOOP (prop props "loop"), 50)
  /\ animation_frames (snd after)
     = animation_frames pg ++ replicate n (RENDER_LOOP (prop props "render")).
Proof.
  intros Hpg Hinit. cbv zeta.
  set (F := fun ep : Index.Engine * Page => fst (Index.start (VObj props) (fst ep) (snd ep))).
  induction n as [| n IH].
  - cbn. rewrite !app_nil_r. done.
  - change (Nat.iter (S n) F (this, pg)) with (F (Nat.iter n F (this, pg))).
    set (ep := Nat.iter n F (this, pg)) in *. destruct IH as (Hs & Ht & Hi & Hf).
    unfold F at 1 2 3 4.
    rewrite (start_index_cases last props (fst ep) (snd ep) Ht), Hs. cbn.
    rewrite Hi, Hf, <- !app_assoc.
    change [(SIM_LOOP (prop props "loop"), 50)]
      with (replicate 1 (SIM_LOOP (prop props "loop"), 50)).
    change [RENDER_LOOP (prop props "render")]
      with (replicate 1 (RENDER_LOOP (prop props "render"))).
    rewrite <- !replicate_add, Nat.add_1_r. done.
Qed.

(** X11: in [index.js] the state stays INIT, so every call of [start]
    installs the loops again: after [n] calls there are [n] more interval
    timers and [n] more frame requests. *)
Theorem start_again_index (last : value) (props : list (string * value)) (n : nat)
    (this : Index.Engine) (pg : Page) :
  states pg = Index.states_with last ->
  Index.state this = VStr "INIT" ->
  let after := Nat.iter n (fun ep => fst (Index.start (VObj props) (fst ep) (snd ep)))
                 (this, pg) in
  Index.state (fst after) = VStr "INIT"
  /\ length (intervals (snd after)) = (length (intervals pg) + n)%nat
  /\ length (animation_frames (snd after)) = (length (animation_frames pg) + n)%nat.
Proof.
  intros Hpg Hinit after.
  destruct (start_index_iter last props n this pg Hpg Hinit) as (Hs & _ & Hi & Hf).
  fold after in Hs, Hi, Hf. rewrite Hi, Hf, !length_app, !length_replicate. done.
Qed.

End EngineFacts.

Lemma start_once_part000_witness :
  let after := fst (Part000.start (VObj sample_callbacks) fresh_part000 Part000.loaded) in
  Part000.start (VObj []) (fst after) (snd after) = (after, Return ())
  /\ (length (intervals (snd after)) <= length (intervals Part000.loaded) + 1)%nat.
Proof.
  apply (start_once_part000 VNull sample_callbacks [] fresh_part000 Part000.loaded).
  reflexivity.
Defined.

Lemma start_again_index_witness :
  let after := Nat.iter 3 (fun ep => fst (Index.start (VObj sample_callbacks) (fst ep) (snd ep)))
                 (fresh_index, Index.loaded) in
  Index.state (fst after) = VStr "INIT"
  /\ length (intervals (snd after)) = (length (intervals Index.loaded) + 3)%nat
  /\ length (animation_frames (snd after))
     = (length (animation_frames Index.loaded) + 3)%nat.
Proof.
  apply (start_again_index VNull sample_callbacks 3 fresh_index Index.loaded);
    reflexivity.
Defined.

Section StateFacts.

Variables (last : value) (pg : Page) (this : Part000.Engine).
Hypothesis table_of_script : states pg = Part000.states_with last.

Lemma known_not_string (v : value) (k : string) :
  v ∈ part000_states -> strict_eq v (VStr k) = false.
Proof.
  unfold part000_states. rewrite !elem_of_cons, elem_of_nil.
  intros [-> | [-> | [-> | [-> | [-> | [-> | []]]]]]]; reflexivity.
Qed.

Lemma known_strict_refl (v : value) : v ∈ part000_states -> strict_eq v v = true.
Proof.
  unfold part000_states. rewrite !elem_of_cons, elem_of_nil.
  intros [-> | [-> | [-> | [-> | [-> | [-> | []]]]]]]; reflexivity.
Qed.

(** X12: in [part_000] a state can be set by its name or by its value to
    the same effect: for each of the five names, [setState (name)] and
    [setState (states[name])] leave the same engine and the same table. *)
Theorem setState_name_or_value (k : string) :
  last ∈ part000_states ->
  k ∈ ["init"; "start"; "play"; "pause"; "end"] ->
  Part000.setState (VStr k) this pg = Part000.setState (prop (states pg) k) this pg
  /\ Part000.state (fst (fst (Part000.setState (VStr k) this pg))) = prop (states pg) k.
Proof.
  intros Hlast Hk.
  rewrite !(setState_part000_cases last pg _ this table_of_script).
  assert (Hnot : is_state_value (states pg) (VStr k) = false).
  { rewrite table_of_script. unfold is_state_value. cbn.
    by rewrite (known_not_string last k Hlast). }
  rewrite Hnot, table_of_script.
  rewrite !elem_of_cons, elem_of_nil in Hk.
  destruct Hk as [-> | [-> | [-> | [-> | [-> | []]]]]]; split; reflexivity.
Qed.

(** X13: in [part_000] a change of state can be taken back: after a call
    of [setState] that returned, [setState (states.last)] puts the engine
    back as it was before that call. *)
Theorem setState_undo (arg : value) (this1 : Part000.Engine) (pg1 : Page) :
  Part000.state this ∈ part000_states ->
  Part000.setState arg this pg = ((this1, pg1), Return ()) ->
  fst (fst (Part000.setState (prop (states pg1) "last") this1 pg1)) = this
  /\ snd (Part000.setState (prop (states pg1) "last") this1 pg1) = Return ()
  /\ prop (states (snd (fst (Part000.setState (prop (states pg1) "last") this1 pg1))))
       "last" = Part000.state this1.
Proof.
  intros Hknown Hset.
  rewrite (setState_part000_cases last pg arg this table_of_script) in Hset.
  assert (Hpg1 : states pg1 = Part000.states_with (Part000.state this)
                 /\ exists v, this1 = Part000.set_state v this).
  { destruct (is_state_value (states pg) arg);
      [| destruct (is_state_name arg); [| discriminate]];
      injection Hset as <- <-; (split; [reflexivity | by eexists]). }
  destruct Hpg1 as [Hpg1 [v ->]].
  rewrite (setState_part000_cases (Part000.state this) pg1 _ _ Hpg1).
  rewrite Hpg1. change (prop (Part000.states_with (Part000.state this)) "last")
    with (Part000.state this).
  assert (Hv : is_state_value (Part000.states_with (Part000.state this))
                 (Part000.state this) = true).
  { unfold is_state_value. cbn. rewrite (known_strict_refl _ Hknown).
    by rewrite !orb_true_r. }
  rewrite Hv. cbn. destruct this. repeat split.
Qed.

End StateFacts.

Lemma setState_name_or_value_witness :
  Part000.setState (VStr "pause") fresh_part000 Part000.loaded
    = Part000.setState (prop (states Part000.loaded) "pause") fresh_part000 Part000.loaded
  /\ Part000.state (fst (fst (Part000.setState (VStr "pause") fresh_part000 Part000.loaded)))
     = prop (states Part000.loaded) "pause".
Proof.
  apply (setState_name_or_value VNull Part000.loaded fresh_part000).
  - reflexivity.
  - unfold part000_states. rewrite !elem_of_cons. tauto.
  - rewrite !elem_of_cons. tauto.
Defined.

Lemma setState_undo_witness :
  let pg1 := set_states (Part000.states_with (VNum (num 0))) Part000.loaded in
  fst (fst (Part000.setState (prop (states pg1) "last") paused_part000 pg1)) = fresh_part000
  /\ snd (Part000.setState (prop (states pg1) "last") paused_part000 pg1) = Return ()
  /\ prop (states (snd (fst (Part000.setState (prop (states pg1) "last")
                               paused_part000 pg1)))) "last"
     = Part000.state paused_part000.
Proof.
  apply (setState_undo VNull Part000.loaded fresh_part000 eq_refl (VStr "pause")).
  - unfold part000_states. rewrite !elem_of_cons. tauto.
  - reflexivity.
Defined.

Section ToggleFacts.

Import Part000Loops.

(** [togglePause] of [part_000] on a table of the script, by cases. *)
Lemma togglePause_part000_cases (last : value) (this : Part000.Engine) (pg : Page) :
  states pg = Part000.states_with last ->
  togglePause this pg =
    let recorded := set_states (Part000.states_with (Part000.state this)) pg in
    if strict_eq (Part000.state this) (VNum (num 3)) then
      let this' := Part000.set_state (VNum (num 2)) this in
      match Part000.render this with
      | None => ((this', recorded, []), Throw render_undefined)
      | Some t =>
          match run_task t this' recorded with
          | ((pg'', evs), Throw e) => ((this', pg'', evs), Throw e)
          | ((pg'', evs), Return _) =>
              ((this', pg'', evs ++ [console_log "Unpaused"]), Return ())
          end
      end
    else ((Part000.set_state (VNum (num 3)) this, recorded, [console_log "Paused"]),
          Return ()).
Proof.
  intros Hpg. unfold togglePause.
  rewrite !(setState_part000_cases last pg _ this Hpg), Hpg.
  change (prop (Part000.states_with last) "pause") with (VNum (num 3)).
  change (prop (Part000.states_with last) "play") with (VNum (num 2)).
  destruct (strict_eq (Part000.state this) (VNum (num 3))); reflexivity.
Qed.

(** X14: [togglePause] of [part_000], once [start] has stored a render
    loop whose callback is a function.  In any state but PAUSE it moves
    the engine to PAUSE and touches no timer.  In state PAUSE it moves the
    engine to PLAY, clears the surface, calls the render callback once and
    requests one frame.  Both ways the state left is remembered as
    [last]. *)
Theorem togglePause_part000 (last f : value) (this : Part000.Engine) (pg : Page) :
  states pg = Part000.states_with last ->
  Part000.render this = Some (RENDER_LOOP f) ->
  is_function f = true ->
  let recorded := set_states (Part000.states_with (Part000.state this)) pg in
  (Part000.state this <> VNum (num 3) ->
     togglePause this pg
       = ((Part000.set_state (VNum (num 3)) this, recorded, [console_log "Paused"]),
          Return ()))
  /\ (Part000.state this = VNum (num 3) ->
        togglePause this pg
          = ((Part000.set_state (VNum (num 2)) this,
              requestAnimationFrame (RENDER_LOOP f) recorded,
              [clearRect 0 0 (width (Part000.sizes this)) (height (Part000.sizes this));
               render_called f; console_log "Unpaused"]),
             Return ())).
Proof.
  intros Hpg Hrender Hf recorded.
  rewrite (togglePause_part000_cases last this pg Hpg). cbv zeta. fold recorded.
  split.
  - intros Hne. destruct (strict_eq (Part000.state this) (VNum (num 3))) eqn:E;
      [| reflexivity].
    by apply strict_eq_num in E.
  - intros Hpaused. rewrite (proj2 (strict_eq_num _ _) Hpaused), Hrender.
    cbn [run_task]. unfold RENDER_LOOP_body. rewrite Hf. reflexivity.
Qed.

End ToggleFacts.

Section ToggleIndexFacts.

Import IndexLoops.

(** [togglePause] of [index.js] on a table of the script, by cases. *)
Lemma togglePause_index_cases (last : value) (this : Index.Engine) (pg : Page) :
  states pg = Index.states_with last ->
  togglePause this pg =
    if strict_eq (Index.state this) (VStr "PAUSE") then
      let this' := Index.set_state (VStr "PLAY") this in
      match Index.render this with
      | None => ((this', pg, []), Throw render_undefined)
      | Some t =>
          let '((pg', evs), c) := run_task t this' pg in
          ((this', pg', evs), c)
      end
    else ((Index.set_state (VStr "PAUSE") this, pg, []), Return ()).
Proof. intros Hpg. unfold togglePause. rewrite Hpg. reflexivity. Qed.

(** A frame of the render loop of [index.js] in state PLAY. *)
Lemma RENDER_LOOP_index_playing (last f : value) (this : Index.Engine) (pg : Page) :
  states pg = Index.states_with last ->
  is_function f = true ->
  RENDER_LOOP_body f (Index.set_state (VStr "PLAY") this) pg
    = ((requestAnimationFrame (RENDER_LOOP f) pg,
        [clearRect 0 0 (width (Index.canvas_size this)) (height (Index.canvas_size this));
         render_called f]), Return ()).
Proof.
  intros Hpg Hf. unfold RENDER_LOOP_body. rewrite Hpg, Hf. reflexivity.
Qed.

(** X15: [togglePause] of [index.js], once [start] has stored a render
    loop whose callback is a function.  In any state but PAUSE it sets the
    state to PAUSE and nothing else.  In state PAUSE it sets the state to
    PLAY, clears the surface, calls the render callback once and requests
    one frame.  The table's [last] is not written. *)
Theorem togglePause_index (last f : value) (this : Index.Engine) (pg : Page) :
  states pg = Index.states_with last ->
  Index.render this = Some (RENDER_LOOP f) ->
  is_function f = true ->
  (Index.state this <> VStr "PAUSE" ->
     togglePause this pg = ((Index.set_state (VStr "PAUSE") this, pg, []), Return ()))
  /\ (Index.state this = VStr "PAUSE" ->
        togglePause this pg
          = ((Index.set_state (VStr "PLAY") this,
              requestAnimationFrame (RENDER_LOOP f) pg,
              [clearRect 0 0 (width (Index.canvas_size this))
                 (height (Index.canvas_size this));
               render_called f]),
             Return ())).
Proof.
  intros Hpg Hrender Hf. unfold togglePause. rewrite Hpg.
  change (prop (Index.states_with last) "pause") with (VStr "PAUSE").
  change (prop (Index.states_with last) "play") with (VStr "PLAY").
  split.
  - intros Hne. destruct (strict_eq (Index.state this) (VStr "PAUSE")) eqn:E;
      [| reflexivity].
    by apply strict_eq_str in E.
  - intros Hpaused. rewrite (proj2 (strict_eq_str _ _) Hpaused).
    cbn [Index.render Index.set_state]. rewrite Hrender.
    cbn [run_task]. unfold RENDER_LOOP_body. rewrite Hpg, Hf. reflexivity.
Qed.

End ToggleIndexFacts.

Lemma togglePause_part000_witness :
  Part000Loops.togglePause running_part000 Part000.loaded
    = ((Part000.set_state (VNum (num 3)) running_part000,
        set_states (Part000.states_with (VNum (num 1))) Part000.loaded,
        [console_log "Paused"]), Return ())
  /\ Part000Loops.togglePause (Part000.set_state (VNum (num 3)) running_part000)
       Part000.loaded
     = ((Part000.set_state (VNum (num 2)) (Part000.set_state (VNum (num 3)) running_part000),
         requestAnimationFrame (RENDER_LOOP (VFun 2))
           (set_states (Part000.states_with (VNum (num 3))) Part000.loaded),
         [clearRect 0 0 (VNum (num 640)) (VNum (num 480)); render_called (VFun 2);
          console_log "Unpaused"]), Return ()).
Proof.
  split.
  - apply (proj1 (togglePause_part000 VNull (VFun 2) running_part000 Part000.loaded
                    eq_refl eq_refl eq_refl)).
    discriminate.
  - apply (proj2 (togglePause_part000 VNull (VFun 2)
                    (Part000.set_state (VNum (num 3)) running_part000) Part000.loaded
                    eq_refl eq_refl eq_refl)).
    reflexivity.
Defined.

Lemma togglePause_index_witness :
  IndexLoops.togglePause running_index Index.loaded
    = ((Index.set_state (VStr "PAUSE") running_index, Index.loaded, []), Return ())
  /\ IndexLoops.togglePause (Index.set_state (VStr "PAUSE") running_index) Index.loaded
     = ((Index.set_state (VStr "PLAY") (Index.set_state (VStr "PAUSE") running_index),
         requestAnimationFrame (RENDER_LOOP (VFun 2)) Index.loaded,
         [clearRect 0 0 (VNum (num 640)) (VNum (num 480)); render_called (VFun 2)]),
        Return ()).
Proof.
  split.
  - apply (proj1 (togglePause_index VNull (VFun 2) running_index Index.loaded
                    eq_refl eq_refl eq_refl)).
    discriminate.
  - apply (proj2 (togglePause_index VNull (VFun 2)
                    (Index.set_state (VStr "PAUSE") running_index) Index.loaded
                    eq_refl eq_refl eq_refl)).
    reflexivity.
Defined.

(** X16: once [togglePause] has paused an engine, a frame of the render
    loop clears nothing, calls nothing and requests no further frame, and
    a tick of the simulation loop calls nothing; the interval timers are
    all still set. *)
Theorem paused_loops_idle (last f l : value) (pg : Page) :
  (forall this : Part000.Engine,
     states pg = Part000.states_with last ->
     Part000.state this <> VNum (num 3) ->
     let after := fst (fst (Part000Loops.togglePause this pg)) in
     Part000Loops.RENDER_LOOP_body f (fst after) (snd after) = ((snd after, []), Return ())
     /\ Part000Loops.SIM_LOOP_body l (fst after) (snd after) = ((snd after, []), Return ())
     /\ intervals (snd after) = intervals pg
     /\ animation_frames (snd after) = animation_frames pg)
  /\ (forall this : Index.Engine,
        states pg = Index.states_with last ->
        Index.state this <> VStr "PAUSE" ->
        let after := fst (fst (IndexLoops.togglePause this pg)) in
        IndexLoops.RENDER_LOOP_body f (fst after) (snd after) = ((snd after, []), Return ())
        /\ IndexLoops.SIM_LOOP_body l (fst after) (snd after) = ((snd after, []), Return ())
        /\ intervals (snd after) = intervals pg
        /\ animation_frames (snd after) = animation_frames pg).
Proof.
  split; intros this Hpg Hne.
  - rewrite (togglePause_part000_cases last this pg Hpg). cbv zeta.
    destruct (strict_eq (Part000.state this) (VNum (num 3))) eqn:E;
      [by apply strict_eq_num in E |].
    cbn [fst snd]. repeat split.
  - unfold IndexLoops.togglePause. rewrite Hpg.
    change (prop (Index.states_with last) "pause") with (VStr "PAUSE").
    destruct (strict_eq (Index.state this) (VStr "PAUSE")) eqn:E;
      [by apply strict_eq_str in E |].
    cbn [fst snd]. unfold IndexLoops.RENDER_LOOP_body, IndexLoops.SIM_LOOP_body.
    rewrite Hpg. repeat split.
Qed.

Lemma paused_loops_idle_witness :
  (let after := fst (fst (Part000Loops.togglePause running_part000 Part000.loaded)) in
   Part000Loops.RENDER_LOOP_body (VFun 2) (fst after) (snd after)
     = ((snd after, []), Return ())
   /\ Part000Loops.SIM_LOOP_body (VFun 1) (fst after) (snd after)
      = ((snd after, []), Return ())
   /\ intervals (snd after) = intervals Part000.loaded
   /\ animation_frames (snd after) = animation_frames Part000.loaded)
  /\ (let after := fst (fst (IndexLoops.togglePause running_index Index.loaded)) in
      IndexLoops.RENDER_LOOP_body (VFun 2) (fst after) (snd after)
        = ((snd after, []), Return ())
      /\ IndexLoops.SIM_LOOP_body (VFun 1) (fst after) (snd after)
         = ((snd after, []), Return ())
      /\ intervals (snd after) = intervals Index.loaded
      /\ animation_frames (snd after) = animation_frames Index.loaded).
Proof.
  split.
  - apply (proj1 (paused_loops_idle VNull (VFun 2) (VFun 1) Part000.loaded));
      [reflexivity | discriminate].
  - apply (proj2 (paused_loops_idle VNull (VFun 2) (VFun 1) Index.loaded));
      [reflexivity | discriminate].
Defined.

(** X17: pausing and unpausing an engine whose render loop is stored
    leaves it in state PLAY, whatever state it was in before, and adds one
    frame request to those pending: none is cancelled, so a request made
    before the pause and not yet served stays pending beside the new one.
    The interval timers are as they were. *)
Theorem pause_unpause (last f : value) (pg : Page) :
  is_function f = true ->
  (forall this : Part000.Engine,
     states pg = Part000.states_with last ->
     Part000.render this = Some (RENDER_LOOP f) ->
     Part000.state this <> VNum (num 3) ->
     let paused := fst (fst (Part000Loops.togglePause this pg)) in
     let resumed := Part000Loops.togglePause (fst paused) (snd paused) in
     snd resumed = Return ()
     /\ Part000.state (fst (fst (fst resumed))) = VNum (num 2)
     /\ animation_frames (snd (fst (fst resumed))) = animation_frames pg ++ [RENDER_LOOP f]
     /\ intervals (snd (fst (fst resumed))) = intervals pg
     /\ prop (states (snd (fst (fst resumed)))) "last" = VNum (num 3))
  /\ (forall this : Index.Engine,
        states pg = Index.states_with last ->
        Index.render this = Some (RENDER_LOOP f) ->
        Index.state this <> VStr "PAUSE" ->
        let paused := fst (fst (IndexLoops.togglePause this pg)) in
        let resumed := IndexLoops.togglePause (fst paused) (snd paused) in
        snd resumed = Return ()
        /\ Index.state (fst (fst (fst resumed))) = VStr "PLAY"
        /\ animation_frames (snd (fst (fst resumed)))
           = animation_frames pg ++ [RENDER_LOOP f]
        /\ intervals (snd (fst (fst resumed))) = intervals pg
        /\ states (snd (fst (fst resumed))) = states pg).
Proof.
  intros Hf. split; intros this Hpg Hrender Hne.
  - rewrite (togglePause_part000_cases last this pg Hpg). cbv zeta.
    destruct (strict_eq (Part000.state this) (VNum (num 3))) eqn:E;
      [by apply strict_eq_num in E |].
    cbn [fst snd].
    rewrite (togglePause_part000_cases (Part000.state this)) by reflexivity.
    cbn [Part000.state Part000.set_state Part000.render]. rewrite Hrender.
    change (strict_eq (VNum (num 3)) (VNum (num 3))) with true. cbv iota zeta.
    cbn [Part000Loops.run_task]. unfold Part000Loops.RENDER_LOOP_body. rewrite Hf.
    repeat split.
  - rewrite (togglePause_index_cases last this pg Hpg).
    destruct (strict_eq (Index.state this) (VStr "PAUSE")) eqn:E;
      [by apply strict_eq_str in E |].
    cbn [fst snd]. rewrite (togglePause_index_cases last _ pg Hpg).
    cbn [Index.state Index.set_state Index.render]. rewrite Hrender.
    change (strict_eq (VStr "PAUSE") (VStr "PAUSE")) with true. cbv iota zeta.
    cbn [IndexLoops.run_task].
    change (Index.set_state (VStr "PLAY") (Index.set_state (VStr "PAUSE") this))
      with (Index.set_state (VStr "PLAY") this).
    rewrite (RENDER_LOOP_index_playing last f this pg Hpg Hf). repeat split.
Qed.

Lemma pause_unpause_witness :
  (let paused := fst (fst (Part000Loops.togglePause running_part000 Part000.loaded)) in
   let resumed := Part000Loops.togglePause (fst paused) (snd paused) in
   snd resumed = Return ()
   /\ Part000.state (fst (fst (fst resumed))) = VNum (num 2)
   /\ animation_frames (snd (fst (fst resumed)))
      = animation_frames Part000.loaded ++ [RENDER_LOOP (VFun 2)]
   /\ intervals (snd (fst (fst resumed))) = intervals Part000.loaded
   /\ prop (states (snd (fst (fst resumed)))) "last" = VNum (num 3))
  /\ (let paused := fst (fst (IndexLoops.togglePause running_index Index.loaded)) in
      let resumed := IndexLoops.togglePause (fst paused) (snd paused) in
      snd resumed = Return ()
      /\ Index.state (fst (fst (fst resumed))) = VStr "PLAY"
      /\ animation_frames (snd (fst (fst resumed)))
         = animation_frames Index.loaded ++ [RENDER_LOOP (VFun 2)]
      /\ intervals (snd (fst (fst resumed))) = intervals Index.loaded
      /\ states (snd (fst (fst resumed))) = states Index.loaded).
Proof.
  split.
  - apply (proj1 (pause_unpause VNull (VFun 2) Part000.loaded eq_refl));
      [reflexivity | reflexivity | discriminate].
  - apply (proj2 (pause_unpause VNull (VFun 2) Index.loaded eq_refl));
      [reflexivity | reflexivity | discriminate].
Defined.

(** X18: an engine paused and unpaused before [start] was ever called
    has no render loop to call: the second [togglePause] throws a
    [TypeError] with the state already set to PLAY, and from then on
    [start] installs nothing. *)
Theorem toggled_before_start (last : value) (pg : Page) (props : list (string * value)) :
  (forall this : Part000.Engine,
     states pg = Part000.states_with last ->
     Part000.render this = None ->
     Part000.state this <> VNum (num 3) ->
     let paused := fst (fst (Part000Loops.togglePause this pg)) in
     let resumed := Part000Loops.togglePause (fst paused) (snd paused) in
     snd resumed = Throw render_undefined
     /\ Part000.state (fst (fst (fst resumed))) = VNum (num 2)
     /\ Part000.start (VObj props) (fst (fst (fst resumed))) (snd (fst (fst resumed)))
        = (fst (fst resumed), Return ()))
  /\ (forall this : Index.Engine,
        states pg = Index.states_with last ->
        Index.render this = None ->
        Index.state this <> VStr "PAUSE" ->
        let paused := fst (fst (IndexLoops.togglePause this pg)) in
        let resumed := IndexLoops.togglePause (fst paused) (snd paused) in
        snd resumed = Throw render_undefined
        /\ Index.state (fst (fst (fst resumed))) = VStr "PLAY"
        /\ Index.start (VObj props) (fst (fst (fst resumed))) (snd (fst (fst resumed)))
           = (fst (fst resumed), Return ())).
Proof.
  split; intros this Hpg Hrender Hne.
  - rewrite (togglePause_part000_cases last this pg Hpg). cbv zeta.
    destruct (strict_eq (Part000.state this) (VNum (num 3))) eqn:E;
      [by apply strict_eq_num in E |].
    cbn [fst snd].
    rewrite (togglePause_part000_cases (Part000.state this)) by reflexivity.
    cbn [Part000.state Part000.set_state Part000.render]. rewrite Hrender.
    change (strict_eq (VNum (num 3)) (VNum (num 3))) with true. cbv iota zeta.
    cbn [fst snd]. repeat split.
  - rewrite (togglePause_index_cases last this pg Hpg).
    destruct (strict_eq (Index.state this) (VStr "PAUSE")) eqn:E;
      [by apply strict_eq_str in E |].
    cbn [fst snd]. rewrite (togglePause_index_cases last _ pg Hpg).
    cbn [Index.state Index.set_state Index.render]. rewrite Hrender.
    change (strict_eq (VStr "PAUSE") (VStr "PAUSE")) with true. cbv iota zeta.
    cbn [fst snd]. split; [reflexivity |]. split; [reflexivity |].
    rewrite (start_index_cases last) by exact Hpg. reflexivity.
Qed.

Lemma toggled_before_start_witness :
  (let paused := fst (fst (Part000Loops.togglePause fresh_part000 Part000.loaded)) in
   let resumed := Part000Loops.togglePause (fst paused) (snd paused) in
   snd resumed = Throw render_undefined
   /\ Part000.state (fst (fst (fst resumed))) = VNum (num 2)
   /\ Part000.start (VObj sample_callbacks) (fst (fst (fst resumed)))
        (snd (fst (fst resumed)))
      = (fst (fst resumed), Return ()))
  /\ (let paused := fst (fst (IndexLoops.togglePause fresh_index Index.loaded)) in
      let resumed := IndexLoops.togglePause (fst paused) (snd paused) in
      snd resumed = Throw render_undefined
      /\ Index.state (fst (fst (fst resumed))) = VStr "PLAY"
      /\ Index.start (VObj sample_callbacks) (fst (fst (fst resumed)))
           (snd (fst (fst resumed)))
         = (fst (fst resumed), Return ())).
Proof.
  split.
  - apply (proj1 (toggled_before_start VNull Part000.loaded sample_callbacks));
      [reflexivity | reflexivity | discriminate].
  - apply (proj2 (toggled_before_start VNull Index.loaded sample_callbacks));
      [reflexivity | reflexivity | discriminate].
Defined.

Lemma elem_of_part000_states (v : value) :
  v ∈ part000_states <->
  v = VNum (num 0) \/ v = VNum (num 1) \/ v = VNum (num 2) \/ v = VNum (num 3)
  \/ v = VNum (num 4) \/ v = VNull.
Proof.
  unfold part000_states. rewrite !elem_of_cons, elem_of_nil. tauto.
Qed.

(** One call keeps the states known. *)
Lemma invoke_known (m : method) (ep : Part000.Engine * Page) :
  known_part000 ep -> known_part000 (invoke m ep).
Proof.
  destruct ep as [this pg]. intros [Hstate (last & Hpg & Hlast)]. cbn [fst snd] in *.
  destruct m as [arg | props |]; cbn [invoke fst snd].
  - exact (setState_part000_known last pg arg this Hpg Hlast Hstate).
  - rewrite (start_part000_cases last props this pg Hpg).
    destruct (strict_eq _ _); cbn [fst snd].
    + split; [apply elem_of_part000_states; tauto |]. exists (Part000.state this). done.
    + split; [done | by exists last].
  - rewrite (togglePause_part000_cases last this pg Hpg). cbv zeta.
    destruct (strict_eq _ _).
    + destruct (Part000.render this) as [[f | f] |]; cbn [Part000Loops.run_task].
      * unfold Part000Loops.RENDER_LOOP_body.
        cbn [Part000.state Part000.set_state states set_states].
        change (strict_eq (VNum (num 2))
                  (prop (Part000.states_with (Part000.state this)) "pause")) with false.
        cbv iota. destruct (is_function f); cbn [fst snd];
          (split; [apply elem_of_part000_states; tauto |]);
          exists (Part000.state this); done.
      * unfold Part000Loops.SIM_LOOP_body.
        cbn [Part000.state Part000.set_state states set_states].
        change (strict_eq (VNum (num 2))
                  (prop (Part000.states_with (Part000.state this)) "pause")) with false.
        cbv iota. destruct (is_function f); cbn [fst snd];
          (split; [apply elem_of_part000_states; tauto |]);
          exists (Part000.state this); done.
      * cbn [fst snd]. split; [apply elem_of_part000_states; tauto |].
        exists (Part000.state this). done.
    + cbn [fst snd]. split; [apply elem_of_part000_states; tauto |].
      exists (Part000.state this). done.
Qed.

(** X19: in [part_000], whatever the caller does with [setState], [start]
    and [togglePause], and whatever primitive arguments it passes to
    [setState], the engine's state and the table's [last] are each one of
    the five state numbers or null, and the five named entries of the
    table are never written. *)
Theorem session_states_known (ms : list method) (ep : Part000.Engine * Page) :
  Forall (fun m => primitive_call m = true) ms ->
  known_part000 ep -> known_part000 (session ms ep).
Proof.
  intros _. revert ep. induction ms as [| m ms IH]; intros ep H; [exact H |].
  unfold session in *. cbn [foldl]. apply IH. by apply invoke_known.
Qed.

Lemma session_states_known_witness :
  known_part000
    (session [call_togglePause; call_setState (VStr "last"); call_start sample_callbacks;
              call_setState (VStr "nowhere"); call_setState (VNum (num 4));
              call_togglePause]
       (fresh_part000, Part000.loaded)).
Proof.
  apply session_states_known; [repeat constructor |]. split.
  - apply elem_of_part000_states. cbn. tauto.
  - exists VNull. split; [reflexivity | apply elem_of_part000_states; tauto].
Defined.

(** ** ParticleEmitter: particles and emitters as they are built *)

(** A source coordinate that is neither a number nor undefined stops
    the creation at [setPosition]. *)
Lemma createParticle_bad_source (e : Part000.ParticleEmitter) (pos : value)
    (ry : result value) :
  omitted_or_number (fst (Part000.source e)) = false
  \/ omitted_or_number (snd (Part000.source e)) = false ->
  Part000.createParticle pos ry e
    = Throw (Error "setPosition called with invalid x and y coordinates." []).
Proof.
  destruct e as [lim c sz [srcX srcY] sp v ps]. cbn [Part000.source fst snd].
  intros [H | H].
  - destruct srcX; try discriminate; destruct srcY; reflexivity.
  - destruct srcY; try discriminate; destruct srcX; reflexivity.
Qed.

(** The particle [createParticle] builds when it returns. *)
Lemma createParticle_value (e : Part000.ParticleEmitter) (pos ry : value) :
  omitted_or_number (fst (Part000.source e)) = true ->
  omitted_or_number (snd (Part000.source e)) = true ->
  omitted_or_number ry = true ->
  Part000.createParticle pos (Return ry) e
    = Return {| position := {| x := given_or (fst (Part000.source e)) 0%Qc;
                               y := given_or (snd (Part000.source e)) 0%Qc |};
                velocity := {| x := Part000.speed e; y := given_or ry 0%Qc |};
                acceleration := num 1;
                size := {| width := Part000.size e; height := Part000.size e |};
                color := Part000.color e;
                methods_render := Some ParticleRender |}.
Proof.
  destruct e as [lim c sz [srcX srcY] sp v ps]. cbn [Part000.source fst snd].
  intros Hx Hy Hr. destruct srcX; try discriminate; destruct srcY; try discriminate;
    destruct ry; try discriminate; destruct sz; reflexivity.
Qed.

Section ParticleFacts.

Variables (e : Part000.ParticleEmitter) (pos ry : value).

(** X20: [createParticle] of [part_000] returns exactly when each
    coordinate of the source is a number or undefined and the call of
    [randomInRange] returns a number or undefined.  The particle then sits
    at the source (at 0 for an undefined coordinate), moves by the
    emitter's speed along x and by the drawn value along y (by 0 for
    undefined), at acceleration 1, with the emitter's color and size.  Any
    other source coordinate throws the error of [setPosition], any other
    drawn value the error of [setVelocity]; a call of [randomInRange] that
    throws, past a source that [setPosition] takes, makes the creation
    throw the same. *)
Theorem createParticle_contract :
  (omitted_or_number (fst (Part000.source e)) = true ->
   omitted_or_number (snd (Part000.source e)) = true ->
   omitted_or_number ry = true ->
   Part000.createParticle pos (Return ry) e
     = Return {| position := {| x := given_or (fst (Part000.source e)) 0%Qc;
                                y := given_or (snd (Part000.source e)) 0%Qc |};
                 velocity := {| x := Part000.speed e; y := given_or ry 0%Qc |};
                 acceleration := num 1;
                 size := {| width := Part000.size e; height := Part000.size e |};
                 color := Part000.color e;
                 methods_render := Some ParticleRender |})
  /\ (omitted_or_number (fst (Part000.source e)) = false
      \/ omitted_or_number (snd (Part000.source e)) = false ->
      forall r, Part000.createParticle pos r e
        = Throw (Error "setPosition called with invalid x and y coordinates." []))
  /\ (omitted_or_number (fst (Part000.source e)) = true ->
      omitted_or_number (snd (Part000.source e)) = true ->
      omitted_or_number ry = false ->
      Part000.createParticle pos (Return ry) e
        = Throw (Error "setVelocity called with invalid x and y coordinates." []))
  /\ (omitted_or_number (fst (Part000.source e)) = true ->
      omitted_or_number (snd (Part000.source e)) = true ->
      forall err, Part000.createParticle pos (Throw err) e = Throw err).
Proof.
  destruct e as [lim c sz [srcX srcY] sp v ps]. cbn [Part000.source fst snd].
  repeat apply conj.
  - intros Hx Hy Hr. destruct srcX; try discriminate; destruct srcY; try discriminate;
      destruct ry; try discriminate; destruct sz; reflexivity.
  - intros [H | H] r.
    + destruct srcX; try discriminate; destruct srcY; reflexivity.
    + destruct srcY; try discriminate; destruct srcX; reflexivity.
  - intros Hx Hy Hr. destruct srcX; try discriminate; destruct srcY; try discriminate;
      destruct ry; try discriminate; reflexivity.
  - intros Hx Hy err. destruct srcX; try discriminate; destruct srcY; try discriminate;
      reflexivity.
Qed.

End ParticleFacts.

Lemma createParticle_contract_witness :
  Part000.createParticle VUndefined (Return (VNum (num 2))) sample_emitter
    = Return {| position := {| x := num 0; y := num 0 |};
                velocity := {| x := num 10; y := num 2 |};
                acceleration := num 1;
                size := {| width := VNum (num 2); height := VNum (num 2) |};
                color := VStr "black";
                methods_render := Some ParticleRender |}
  /\ Part000.createParticle VUndefined (Return (VStr "2")) sample_emitter
     = Throw (Error "setVelocity called with invalid x and y coordinates." [])
  /\ Part000.createParticle VUndefined Part000.randomInRange_unbound sample_emitter
     = Throw (ReferenceError "randomInRange is not defined").
Proof.
  split; [| split].
  - apply (proj1 (createParticle_contract sample_emitter VUndefined (VNum (num 2))));
      reflexivity.
  - apply (proj1 (proj2 (proj2
             (createParticle_contract sample_emitter VUndefined (VStr "2")))));
      reflexivity.
  - apply (proj2 (proj2 (proj2
             (createParticle_contract sample_emitter VUndefined VUndefined))));
      reflexivity.
Defined.

Section EmptyEmitterFacts.

Variable e : Part000.ParticleEmitter.
Hypothesis starts_empty : Part000.particles e = [].

Lemma emit_all_part000_cons (ry : result value) (rys : list (result value))
    (e0 : Part000.ParticleEmitter) :
  Part000.emit_all (ry :: rys) e0 = Part000.emit_all rys (fst (Part000.emit ry e0)).
Proof. reflexivity. Qed.

(** X21: an emitter of [part_000] whose source has a coordinate that is
    neither a number nor undefined (a non-empty string, say, which the
    constructor lets through) never holds a particle: the list stays
    empty through any calls of [emit ()], and with a positive capacity
    every call throws the error of [setPosition]. *)
Theorem emitter_with_bad_source (rys : list (result value)) :
  omitted_or_number (fst (Part000.source e)) = false
  \/ omitted_or_number (snd (Part000.source e)) = false ->
  Part000.particles (Part000.emit_all rys e) = []
  /\ (0 < Part000.limit e ->
      forall ry,
        snd (Part000.emit ry (Part000.emit_all rys e))
          = Throw (Error "setPosition called with invalid x and y coordinates." [])).
Proof.
  intros Hbad.
  assert (Hstep : forall ry e', config e' = config e -> Part000.particles e' = [] ->
            Part000.particles (fst (Part000.emit ry e')) = []
            /\ (0 < Part000.limit e ->
                snd (Part000.emit ry e')
                  = Throw (Error "setPosition called with invalid x and y coordinates." []))).
  { intros ry e' Hc He'. unfold Part000.emit. rewrite He'. cbn [fmap list_fmap length].
    assert (Hl : Part000.limit e' = Part000.limit e) by (unfold config in Hc; congruence).
    rewrite (createParticle_config e e' _ _ Hc), (createParticle_bad_source e _ _ Hbad), Hl.
    destruct (Z.ltb_spec (Z.of_nat 0) (Part000.limit e)); cbn; split; try done; lia. }
  assert (Hinv : Part000.particles (Part000.emit_all rys e) = []).
  { pose proof (emit_all_part000_config rys e) as Hc. revert Hc.
    induction rys as [| ry rys' IH] using rev_ind; intros Hc; [exact starts_empty |].
    rewrite emit_all_part000_snoc.
    apply (Hstep ry _ (emit_all_part000_config rys' e)), IH, emit_all_part000_config. }
  split; [exact Hinv |]. intros Hlim ry.
  by apply (Hstep ry _ (emit_all_part000_config rys e) Hinv).
Qed.

(** X22: an emitter of [part_000] with a capacity of zero or less, built
    without a seed, stays empty: [emit ()] returns every time, shifting an
    empty list, and never creates a particle. *)
Theorem emitter_without_capacity (rys : list (result value)) :
  Part000.limit e <= 0 ->
  Part000.particles (Part000.emit_all rys e) = []
  /\ (forall ry, Part000.emit ry (Part000.emit_all rys e)
                 = (Part000.emit_all rys e, Return ())).
Proof.
  intros Hlim.
  assert (Hstep : forall ry e', config e' = config e -> Part000.particles e' = [] ->
            Part000.emit ry e' = (e', Return ())).
  { intros ry e' Hc He'. unfold Part000.emit. rewrite He'. cbn [fmap list_fmap length].
    assert (Hl : Part000.limit e' = Part000.limit e) by (unfold config in Hc; congruence).
    rewrite Hl. destruct (Z.ltb_spec (Z.of_nat 0) (Part000.limit e)); [lia |].
    cbn. destruct e'. cbn in He'. subst. reflexivity. }
  assert (Hinv : Part000.particles (Part000.emit_all rys e) = []).
  { induction rys as [| ry rys' IH] using rev_ind; [exact starts_empty |].
    rewrite emit_all_part000_snoc.
    rewrite (Hstep ry _ (emit_all_part000_config rys' e) IH). exact IH. }
  split; [exact Hinv |]. intros ry.
  exact (Hstep ry _ (emit_all_part000_config rys e) Hinv).
Qed.

End EmptyEmitterFacts.

Lemma emitter_with_bad_source_witness :
  let ones := replicate 5 (Return (VNum (num 1))) in
  Part000.createEmitter (Some 3) (VObj [("position", VObj [("x", VStr "left")])])
      (Return VUndefined)
    = Return stuck_emitter
  /\ Part000.particles (Part000.emit_all ones stuck_emitter) = []
  /\ (0 < Part000.limit stuck_emitter ->
      forall ry,
        snd (Part000.emit ry (Part000.emit_all ones stuck_emitter))
          = Throw (Error "setPosition called with invalid x and y coordinates." [])).
Proof.
  split; [reflexivity |].
  apply (emitter_with_bad_source stuck_emitter eq_refl). left. reflexivity.
Defined.

Lemma emitter_without_capacity_witness :
  let ones := replicate 5 (Return (VNum (num 1))) in
  Part000.createEmitter (Some 0) settings_position_only (Return VUndefined)
    = Return zero_emitter
  /\ Part000.particles (Part000.emit_all ones zero_emitter) = []
  /\ (forall ry,
        Part000.emit ry (Part000.emit_all ones zero_emitter)
          = (Part000.emit_all ones zero_emitter, Return ())).
Proof.
  split; [reflexivity |].
  apply (emitter_without_capacity zero_emitter eq_refl). cbn. lia.
Defined.

Section BuiltEmitterFacts.

Lemma or_else_truthy (a b : value) : truthy b = true -> truthy (or_else a b) = true.
Proof. intros Hb. unfold or_else. destruct (truthy a) eqn:E; [exact E | exact Hb]. Qed.

Lemma or_else_defined (a b : value) : b <> VUndefined -> or_else a b <> VUndefined.
Proof.
  intros Hb. unfold or_else. destruct (truthy a) eqn:E; [| exact Hb].
  intros ->. discriminate.
Qed.

(** The shape of what [createEmitter] returns. *)
Lemma createEmitter_shape (lim : option Z) (settings : value) (ry : result value)
    (e : Part000.ParticleEmitter) :
  Part000.createEmitter lim settings ry = Return e ->
  exists c s px py sh sl sp ps,
    e = {| Part000.limit := default 25 lim;
           Part000.color := or_else c (VStr "black");
           Part000.size := or_else s (VNum (num 2));
           Part000.source := (or_else px (VNum (num 0)), or_else py (VNum (num 0)));
           Part000.spread := (sh, sl);
           Part000.speed := match sp with VNum q => Qcabs q | _ => num 10 end;
           Part000.particles := ps |}
    /\ (length ps <= 1)%nat.
Proof.
  unfold Part000.createEmitter.
  repeat (match goal with
          | |- context [mbind _ ?r] => destruct r; cbn [mbind result_bind]
          end; [| discriminate]).
  match goal with
  | |- context [if truthy ?i then _ else _] => destruct (truthy i)
  end.
  - match goal with
    | |- context [Part000.createParticle ?a ?b ?c] =>
        destruct (Part000.createParticle a b c)
    end; cbn [mbind result_bind]; [| discriminate].
    intros [= <-]. do 8 eexists. split; [reflexivity | cbn; lia].
  - intros [= <-]. do 8 eexists. split; [reflexivity | cbn; lia].
Qed.

(** X23: whatever the settings, an emitter [createEmitter] of [part_000]
    returns has the capacity given (25 when none is), a color and a size
    that are truthy, a source without an undefined coordinate, and at most
    one particle. *)
Theorem createEmitter_result (lim : option Z) (settings : value) (ry : result value)
    (e : Part000.ParticleEmitter) :
  Part000.createEmitter lim settings ry = Return e ->
  Part000.limit e = default 25 lim
  /\ truthy (Part000.color e) = true
  /\ truthy (Part000.size e) = true
  /\ fst (Part000.source e) <> VUndefined
  /\ snd (Part000.source e) <> VUndefined
  /\ (length (Part000.particles e) <= 1)%nat.
Proof.
  intros H. apply createEmitter_shape in H as (c & s & px & py & sh & sl & sp & ps & -> & Hps).
  cbn [Part000.limit Part000.speed Part000.color Part000.size Part000.source
       Part000.particles fst snd].
  split; [reflexivity |].
  split; [by apply or_else_truthy |]. split; [by apply or_else_truthy |].
  split; [by apply or_else_defined |]. split; [by apply or_else_defined | exact Hps].
Qed.

End BuiltEmitterFacts.

Lemma createEmitter_result_witness :
  Part000.limit sample_emitter = default 25 (Some 3)
  /\ truthy (Part000.color sample_emitter) = true
  /\ truthy (Part000.size sample_emitter) = true
  /\ fst (Part000.source sample_emitter) <> VUndefined
  /\ snd (Part000.source sample_emitter) <> VUndefined
  /\ (length (Part000.particles sample_emitter) <= 1)%nat.
Proof.
  apply (createEmitter_result (Some 3) settings_position_only (Return (VNum (num 0)))).
  reflexivity.
Defined.

Section EmittedParticleFacts.

Lemma createParticle_particle_of (e : Part000.ParticleEmitter) (pos : value)
    (ry : result value)
    (p : GameObject) :
  Part000.createParticle pos ry e = Return p -> particle_of e p.
Proof.
  destruct e as [lim c sz [srcX srcY] sp v ps].
  destruct srcX; try discriminate; destruct srcY; try discriminate;
    (destruct ry as [vy |]; [destruct vy |]); try discriminate;
    intros [= <-]; destruct sz; repeat split.
Qed.

Lemma particle_of_move (e : Part000.ParticleEmitter) (p : GameObject) :
  particle_of e p -> particle_of e (move p).
Proof. intros H. exact H. Qed.

Lemma particle_of_config (e e' : Part000.ParticleEmitter) (p : GameObject) :
  config e' = config e -> particle_of e' p -> particle_of e p.
Proof.
  destruct e, e'. unfold config, particle_of. cbn. intros [= -> -> -> -> -> ->]. done.
Qed.

Lemma emit_particle_of (e e' : Part000.ParticleEmitter) (ry : result value) :
  config e' = config e ->
  Forall (particle_of e) (Part000.particles e') ->
  Forall (particle_of e) (Part000.particles (fst (Part000.emit ry e'))).
Proof.
  intros Hc Hall.
  assert (Hmoved : Forall (particle_of e) (move <$> Part000.particles e')).
  { apply Forall_fmap. revert Hall. apply Forall_impl. intros p Hp. exact Hp. }
  unfold Part000.emit. destruct (_ <? _).
  - destruct (Part000.createParticle _ _ _) as [p |] eqn:Hp; cbn [fst Part000.particles
      Part000.set_particles]; [| exact Hmoved].
    apply Forall_app. split; [exact Hmoved |]. apply Forall_singleton.
    apply (particle_of_config e e' p Hc), (createParticle_particle_of e' _ _ p Hp).
  - cbn [fst Part000.particles Part000.set_particles].
    destruct (move <$> Part000.particles e') as [| q qs]; [constructor |].
    cbn [tail]. by inversion Hmoved.
Qed.

(** X24: every particle an emitter of [part_000] holds, after it is built
    and after any calls of [emit ()], has acceleration 1, the emitter's
    speed as its velocity along x, the emitter's color and size and the
    circle routine: taken with the straight-line motion of [move ()], a
    particle advances by the speed along x at every call. *)
Theorem emitted_particles (lim : option Z) (settings : value) (ry0 : result value)
    (e : Part000.ParticleEmitter) (rys : list (result value)) :
  Part000.createEmitter lim settings ry0 = Return e ->
  Forall (particle_of e) (Part000.particles (Part000.emit_all rys e)).
Proof.
  intros Hnew.
  assert (Hseed : Forall (particle_of e) (Part000.particles e)).
  { revert Hnew. unfold Part000.createEmitter.
    repeat (match goal with
            | |- context [mbind _ ?r] => destruct r; cbn [mbind result_bind]
            end; [| discriminate]).
    match goal with
    | |- context [if truthy ?i then _ else _] => destruct (truthy i)
    end; [| intros [= <-]; constructor].
    match goal with
    | |- context [Part000.createParticle ?a ?b ?c] =>
        destruct (Part000.createParticle a b c) as [p |] eqn:Hp
    end; cbn [mbind result_bind]; [| discriminate].
    intros [= <-]. apply Forall_singleton.
    apply createParticle_particle_of in Hp. exact Hp. }
  clear Hnew. induction rys as [| ry rys IH] using rev_ind; [exact Hseed |].
  rewrite emit_all_part000_snoc.
  apply emit_particle_of; [apply emit_all_part000_config | exact IH].
Qed.

End EmittedParticleFacts.

Lemma emitted_particles_witness :
  Forall (particle_of sample_emitter)
    (Part000.particles
       (Part000.emit_all (replicate 4 (Return (VNum (num 1)))) sample_emitter)).
Proof.
  apply (emitted_particles (Some 3) settings_position_only (Return (VNum (num 0)))).
  reflexivity.
Defined.

(** ** ParticleEmitter of index.js *)

Section IndexParticleFacts.

Variable d : Index.draws.

(** The particle [createParticle] of [index.js] builds. *)
Lemma createParticle_index_value (px py : value) :
  omitted_or_number px = true -> omitted_or_number py = true ->
  Index.createParticle px py d
    = Return {| position := {| x := given_or px 0%Qc; y := given_or py 0%Qc |};
                velocity := {| x := num 10;
                               y := num (Index.randomInRange (Index.for_velocity d) 3
                                           (Some (-3))) |};
                acceleration := num 1;
                size := {| width := VNum (num 3); height := VNum (num 3) |};
                color := Index.randomInArray (Index.for_color d)
                           [VStr "red"; VStr "blue"; VStr "orange"; VStr "green"];
                methods_render := Some ParticleRender |}.
Proof.
  intros Hx Hy. destruct px; try discriminate; destruct py; try discriminate; reflexivity.
Qed.

(** X25: [createParticle] of [index.js] returns for coordinates that are
    numbers or left out (0 is then taken), and throws for any other.  The
    particle has velocity 10 along x, acceleration 1 and size 3 by 3; for
    draws of [0, 1) its velocity along y is an integer from -3 to 3 and
    its color one of the four names. *)
Theorem createParticle_index (px py : value) :
  (omitted_or_number px = true -> omitted_or_number py = true ->
   exists p,
     Index.createParticle px py d = Return p
     /\ position p = {| x := given_or px 0%Qc; y := given_or py 0%Qc |}
     /\ x (velocity p) = num 10
     /\ acceleration p = num 1
     /\ size p = {| width := VNum (num 3); height := VNum (num 3) |}
     /\ ((0 <= Index.for_velocity d)%Qc -> (Index.for_velocity d < 1)%Qc ->
         exists k, y (velocity p) = num k /\ -3 <= k <= 3)
     /\ ((0 <= Index.for_color d)%Qc -> (Index.for_color d < 1)%Qc ->
         color p ∈ [VStr "red"; VStr "blue"; VStr "orange"; VStr "green"]))
  /\ (omitted_or_number px = false \/ omitted_or_number py = false ->
      Index.createParticle px py d
        = Throw (Error "setPosition called with invalid x and y coordinates." [])).
Proof.
  split.
  - intros Hx Hy. eexists. split; [apply (createParticle_index_value px py Hx Hy) |].
    cbn [position velocity acceleration size color x y].
    do 4 (split; [reflexivity |]). split.
    + intros H0 H1. eexists. split; [reflexivity |].
      apply (randomInRange_low_high _ H0 H1 3 (-3)). lia.
    + intros H0 H1. unfold Index.randomInArray, Index.at_index. cbn [length].
      pose proof (proj1 (randomInRange_low_high _ H0 H1 3 0) ltac:(lia)) as Hi.
      change (Index.randomInRange (Index.for_color d) 3 (Some 0))
        with (Index.randomInRange (Index.for_color d) (Z.of_nat 4 - 1) None) in Hi.
      set (i := Index.randomInRange (Index.for_color d) (Z.of_nat 4 - 1) None) in *.
      destruct (Z.ltb_spec i 0); [lia |].
      assert (i = 0 \/ i = 1 \/ i = 2 \/ i = 3) as [-> | [-> | [-> | ->]]] by lia;
        cbn; rewrite !elem_of_cons; tauto.
  - intros [H | H].
    + destruct px; try discriminate; destruct py; reflexivity.
    + destruct py; try discriminate; destruct px; reflexivity.
Qed.

End IndexParticleFacts.

Lemma createParticle_index_witness :
  (exists p,
     Index.createParticle (VNum (num 300)) VUndefined sample_draws = Return p
     /\ position p = {| x := num 300; y := 0%Qc |}
     /\ x (velocity p) = num 10
     /\ acceleration p = num 1
     /\ size p = {| width := VNum (num 3); height := VNum (num 3) |}
     /\ ((0 <= Index.for_velocity sample_draws)%Qc ->
         (Index.for_velocity sample_draws < 1)%Qc ->
         exists k, y (velocity p) = num k /\ -3 <= k <= 3)
     /\ ((0 <= Index.for_color sample_draws)%Qc -> (Index.for_color sample_draws < 1)%Qc ->
         color p ∈ [VStr "red"; VStr "blue"; VStr "orange"; VStr "green"]))
  /\ Index.createParticle (VStr "300") (VNum (num 200)) sample_draws
     = Throw (Error "setPosition called with invalid x and y coordinates." []).
Proof.
  split.
  - apply (proj1 (createParticle_index sample_draws (VNum (num 300)) VUndefined));
      reflexivity.
  - apply (proj2 (createParticle_index sample_draws (VStr "300") (VNum (num 200)))).
    left. reflexivity.
Defined.

Section IndexEmitterFacts.

Lemma createParticle_index_seed (d : Index.draws) :
  exists p, Index.createParticle (VNum (num 300)) (VNum (num 200)) d = Return p.
Proof. eexists. by apply createParticle_index_value. Qed.

Lemma emit_all_index_snoc (ds : list Index.draws) (d : Index.draws)
    (e : Index.ParticleEmitter) :
  Index.emit_all (ds ++ [d]) e = fst (Index.emit d (Index.emit_all ds e)).
Proof. unfold Index.emit_all. by rewrite foldl_app. Qed.

Lemma emit_all_index_limit (ds : list Index.draws) (e : Index.ParticleEmitter) :
  Index.limit (Index.emit_all ds e) = Index.limit e.
Proof.
  induction ds as [| d ds IH] using rev_ind; [reflexivity |].
  by rewrite emit_all_index_snoc, emit_index_limit.
Qed.

Lemma emit_index_length_step (d : Index.draws) (e : Index.ParticleEmitter) :
  1 <= Z.of_nat (length (Index.particles e))
  \/ Z.of_nat (length (Index.particles e)) < Index.limit e ->
  Z.of_nat (length (Index.particles (fst (Index.emit d e)))) =
    if Z.of_nat (length (Index.particles e)) <? Index.limit e
    then Z.of_nat (length (Index.particles e)) + 1
    else Z.of_nat (length (Index.particles e)) - 1.
Proof.
  intros Hlen. unfold Index.emit. rewrite length_fmap.
  destruct (Z.ltb_spec (Z.of_nat (length (Index.particles e))) (Index.limit e)).
  - destruct (createParticle_index_seed d) as [p ->]. cbn.
    rewrite length_app, length_fmap. cbn. lia.
  - cbn. destruct (Index.particles e); cbn in *; rewrite ?length_fmap; lia.
Qed.

(** X26: in [index.js] the constructor and [emit ()] never throw.  The
    emitter starts with its seed particle; with a capacity of at least 1
    it holds [n + 1] particles after [n] calls up to the capacity, and from
    there on the capacity and one less in turn. *)
Theorem emitter_index_lengths (lim : option Z) (d0 : Index.draws) (ds : list Index.draws) :
  exists e,
    Index.new_ParticleEmitter lim d0 = Return e
    /\ (forall d e', snd (Index.emit d e') = Return ())
    /\ (1 <= Index.limit e ->
        let n := Z.of_nat (length ds) in
        let len := Z.of_nat (length (Index.particles (Index.emit_all ds e))) in
        (n + 1 <= Index.limit e -> len = n + 1)
        /\ (Index.limit e <= n + 1 ->
            len = if Z.even (n + 1 - Index.limit e)
                  then Index.limit e else Index.limit e - 1)).
Proof.
  unfold Index.new_ParticleEmitter.
  destruct (createParticle_index_seed d0) as [p0 ->]. cbn [mbind result_bind].
  eexists. split; [reflexivity |]. split.
  { intros d e'. unfold Index.emit.
    destruct (createParticle_index_seed d) as [p ->]. by destruct (_ <? _). }
  cbn [Index.limit]. set (e := {| Index.limit := default 25 lim; Index.particles := [p0] |}).
  set (l := default 25 lim). intros Hl.
  cbv zeta. induction ds as [| d ds IH] using rev_ind.
  - cbn. split; [lia |]. intros H. assert (l = 1) as -> by lia. reflexivity.
  - destruct IH as [IHlow IHhigh].
    rewrite emit_all_index_snoc, length_app. cbn [length].
    set (m := Z.of_nat (length ds)) in *.
    replace (Z.of_nat (length ds + 1)) with (m + 1) by lia.
    pose proof (emit_index_length_step d (Index.emit_all ds e)) as Hstep.
    rewrite emit_all_index_limit in Hstep. change (Index.limit e) with l in Hstep.
    set (k := Z.of_nat (length (Index.particles (Index.emit_all ds e)))) in *.
    replace (m + 1 + 1 - l) with (Z.succ (m + 1 - l)) by lia.
    rewrite Z.even_succ, <- Z.negb_even.
    destruct (Z.le_gt_cases l (m + 1)) as [Hhi | Hlo].
    + specialize (IHhigh Hhi). destruct (Z.even (m + 1 - l)); cbn [negb] in *.
      * rewrite Hstep by lia. rewrite IHhigh, Z.ltb_irrefl. split; intros; lia.
      * rewrite Hstep by lia. rewrite IHhigh.
        destruct (Z.ltb_spec (l - 1) l); [| lia]. split; intros; lia.
    + specialize (IHlow ltac:(lia)). rewrite Hstep by lia. rewrite IHlow.
      destruct (Z.ltb_spec (m + 1) l); [| lia]. split; [lia |].
      intros Hge. assert (m + 1 - l = -1) as -> by lia. cbn. lia.
Qed.

End IndexEmitterFacts.

Lemma emitter_index_lengths_witness :
  let ds := replicate 4 sample_draws in
  let n := Z.of_nat (length ds) in
  let len := Z.of_nat (length (Index.particles (Index.emit_all ds seeded_index))) in
  (n + 1 <= 3 -> len = n + 1)
  /\ (3 <= n + 1 -> len = if Z.even (n + 1 - 3) then 3 else 3 - 1).
Proof.
  destruct (emitter_index_lengths (Some 3) sample_draws (replicate 4 sample_draws))
    as (e & He & _ & Hlen).
  assert (e = seeded_index) as -> by (injection He as <-; reflexivity).
  apply Hlen. cbn. lia.
Defined.

(** ** The loops once started *)

Section StartedLoopFacts.

Variables (last : value) (props : list (string * value)) (pg : Page).

Let loop_fn : value := prop props "loop".
Let render_fn : value := prop props "render".

(** X27: after [start] has been called in state INIT with two functions,
    a frame of the render loop clears the whole surface, calls [render]
    and requests the next frame, and a tick of the simulation loop calls
    [loop] and leaves the page as it is. *)
Theorem started_loops_run :
  is_function loop_fn = true ->
  is_function render_fn = true ->
  (forall this : Part000.Engine,
     states pg = Part000.states_with last ->
     Part000.state this = VNum (num 0) ->
     let after := fst (Part000.start (VObj props) this pg) in
     Part000.render (fst after) = Some (RENDER_LOOP render_fn)
     /\ Part000Loops.RENDER_LOOP_body render_fn (fst after) (snd after)
        = ((requestAnimationFrame (RENDER_LOOP render_fn) (snd after),
            [clearRect 0 0 (width (Part000.sizes this)) (height (Part000.sizes this));
             render_called render_fn]), Return ())
     /\ Part000Loops.SIM_LOOP_body loop_fn (fst after) (snd after)
        = ((snd after, [loop_called loop_fn]), Return ()))
  /\ (forall this : Index.Engine,
        states pg = Index.states_with last ->
        Index.state this = VStr "INIT" ->
        let after := fst (Index.start (VObj props) this pg) in
        Index.render (fst after) = Some (RENDER_LOOP render_fn)
        /\ IndexLoops.RENDER_LOOP_body render_fn (fst after) (snd after)
           = ((requestAnimationFrame (RENDER_LOOP render_fn) (snd after),
               [clearRect 0 0 (width (Index.canvas_size this))
                  (height (Index.canvas_size this));
                render_called render_fn]), Return ())
        /\ IndexLoops.SIM_LOOP_body loop_fn (fst after) (snd after)
           = ((snd after, [loop_called loop_fn]), Return ())).
Proof.
  intros Hl Hr. split; intros this Hpg Hinit.
  - rewrite (start_part000_cases last props this pg Hpg), Hinit.
    change (strict_eq (VNum (num 0)) (VNum (num 0))) with true. cbv iota zeta.
    cbn [fst snd]. fold loop_fn render_fn.
    unfold Part000Loops.RENDER_LOOP_body, Part000Loops.SIM_LOOP_body.
    cbn [Part000.state Part000.set_state Part000.render Part000.set_render
         Part000.sizes states set_states].
    change (strict_eq (VNum (num 1)) (prop (Part000.states_with (VNum (num 0))) "pause"))
      with false. cbv iota. rewrite Hl, Hr. repeat split.
  - rewrite (start_index_cases last props this pg Hpg), Hinit.
    change (strict_eq (VStr "INIT") (VStr "INIT")) with true. cbv iota zeta.
    cbn [fst snd]. fold loop_fn render_fn.
    unfold IndexLoops.RENDER_LOOP_body, IndexLoops.SIM_LOOP_body.
    cbn [Index.state Index.set_state Index.render Index.set_render Index.canvas_size
         states requestAnimationFrame setInterval].
    rewrite Hpg, Hinit.
    change (strict_eq (VStr "INIT") (prop (Index.states_with last) "pause")) with false.
    cbv iota. rewrite Hl, Hr. repeat split.
Qed.

(** X28: [start] does not look at its callbacks.  Called in state INIT
    with an argument whose [loop] and [render] are not functions, it
    installs both loops all the same; every tick of the simulation loop
    then throws a [TypeError], and the first frame of the render loop
    throws after it has cleared the surface, without requesting another
    frame. *)
Theorem start_unchecked_callbacks :
  is_function loop_fn = false ->
  is_function render_fn = false ->
  (forall this : Part000.Engine,
     states pg = Part000.states_with last ->
     Part000.state this = VNum (num 0) ->
     let after := fst (Part000.start (VObj props) this pg) in
     intervals (snd after) = intervals pg ++ [(SIM_LOOP loop_fn, 50)]
     /\ animation_frames (snd after) = animation_frames pg ++ [RENDER_LOOP render_fn]
     /\ Part000Loops.RENDER_LOOP_body render_fn (fst after) (snd after)
        = ((snd after,
            [clearRect 0 0 (width (Part000.sizes this)) (height (Part000.sizes this))]),
           Throw not_a_function)
     /\ Part000Loops.SIM_LOOP_body loop_fn (fst after) (snd after)
        = ((snd after, []), Throw not_a_function))
  /\ (forall this : Index.Engine,
        states pg = Index.states_with last ->
        Index.state this = VStr "INIT" ->
        let after := fst (Index.start (VObj props) this pg) in
        intervals (snd after) = intervals pg ++ [(SIM_LOOP loop_fn, 50)]
        /\ animation_frames (snd after) = animation_frames pg ++ [RENDER_LOOP render_fn]
        /\ IndexLoops.RENDER_LOOP_body render_fn (fst after) (snd after)
           = ((snd after,
               [clearRect 0 0 (width (Index.canvas_size this))
                  (height (Index.canvas_size this))]),
              Throw not_a_function)
        /\ IndexLoops.SIM_LOOP_body loop_fn (fst after) (snd after)
           = ((snd after, []), Throw not_a_function)).
Proof.
  intros Hl Hr. split; intros this Hpg Hinit.
  - rewrite (start_part000_cases last props this pg Hpg), Hinit.
    change (strict_eq (VNum (num 0)) (VNum (num 0))) with true. cbv iota zeta.
    cbn [fst snd]. fold loop_fn render_fn.
    unfold Part000Loops.RENDER_LOOP_body, Part000Loops.SIM_LOOP_body.
    cbn [Part000.state Part000.set_state Part000.render Part000.set_render
         Part000.sizes states set_states].
    change (strict_eq (VNum (num 1)) (prop (Part000.states_with (VNum (num 0))) "pause"))
      with false. cbv iota. rewrite Hl, Hr. repeat split.
  - rewrite (start_index_cases last props this pg Hpg), Hinit.
    change (strict_eq (VStr "INIT") (VStr "INIT")) with true. cbv iota zeta.
    cbn [fst snd]. fold loop_fn render_fn.
    unfold IndexLoops.RENDER_LOOP_body, IndexLoops.SIM_LOOP_body.
    cbn [Index.state Index.set_state Index.render Index.set_render Index.canvas_size
         states requestAnimationFrame setInterval].
    rewrite Hpg, Hinit.
    change (strict_eq (VStr "INIT") (prop (Index.states_with last) "pause")) with false.
    cbv iota. rewrite Hl, Hr. repeat split.
Qed.

End StartedLoopFacts.

Lemma started_loops_run_witness :
  (let after := fst (Part000.start (VObj sample_callbacks) fresh_part000 Part000.loaded) in
   Part000.render (fst after) = Some (RENDER_LOOP (VFun 2))
   /\ Part000Loops.RENDER_LOOP_body (VFun 2) (fst after) (snd after)
      = ((requestAnimationFrame (RENDER_LOOP (VFun 2)) (snd after),
          [clearRect 0 0 (VNum (num 640)) (VNum (num 480)); render_called (VFun 2)]),
         Return ())
   /\ Part000Loops.SIM_LOOP_body (VFun 1) (fst after) (snd after)
      = ((snd after, [loop_called (VFun 1)]), Return ()))
  /\ (let after := fst (Index.start (VObj sample_callbacks) fresh_index Index.loaded) in
      Index.render (fst after) = Some (RENDER_LOOP (VFun 2))
      /\ IndexLoops.RENDER_LOOP_body (VFun 2) (fst after) (snd after)
         = ((requestAnimationFrame (RENDER_LOOP (VFun 2)) (snd after),
             [clearRect 0 0 (VNum (num 640)) (VNum (num 480)); render_called (VFun 2)]),
            Return ())
      /\ IndexLoops.SIM_LOOP_body (VFun 1) (fst after) (snd after)
         = ((snd after, [loop_called (VFun 1)]), Return ())).
Proof.
  split.
  - apply (proj1 (started_loops_run VNull sample_callbacks Part000.loaded
                    eq_refl eq_refl)); reflexivity.
  - apply (proj2 (started_loops_run VNull sample_callbacks Index.loaded
                    eq_refl eq_refl)); reflexivity.
Defined.

Lemma start_unchecked_callbacks_witness :
  (let after := fst (Part000.start (VObj []) fresh_part000 Part000.loaded) in
   intervals (snd after) = intervals Part000.loaded ++ [(SIM_LOOP VUndefined, 50)]
   /\ animation_frames (snd after)
      = animation_frames Part000.loaded ++ [RENDER_LOOP VUndefined]
   /\ Part000Loops.RENDER_LOOP_body VUndefined (fst after) (snd after)
      = ((snd after, [clearRect 0 0 (VNum (num 640)) (VNum (num 480))]),
         Throw not_a_function)
   /\ Part000Loops.SIM_LOOP_body VUndefined (fst after) (snd after)
      = ((snd after, []), Throw not_a_function))
  /\ (let after := fst (Index.start (VObj []) fresh_index Index.loaded) in
      intervals (snd after) = intervals Index.loaded ++ [(SIM_LOOP VUndefined, 50)]
      /\ animation_frames (snd after)
         = animation_frames Index.loaded ++ [RENDER_LOOP VUndefined]
      /\ IndexLoops.RENDER_LOOP_body VUndefined (fst after) (snd after)
         = ((snd after, [clearRect 0 0 (VNum (num 640)) (VNum (num 480))]),
            Throw not_a_function)
      /\ IndexLoops.SIM_LOOP_body VUndefined (fst after) (snd after)
         = ((snd after, []), Throw not_a_function)).
Proof.
  split.
  - apply (proj1 (start_unchecked_callbacks VNull [] Part000.loaded eq_refl eq_refl));
      reflexivity.
  - apply (proj2 (start_unchecked_callbacks VNull [] Index.loaded eq_refl eq_refl));
      reflexivity.
Defined.
